(** * mizhiCRM performance-test.js: a shallow embedding and its properties

    The development follows [src/performance-test.js], the
    [PerformanceAnalyzer] class:

    - [Double]: the IEEE-754 binary64 arithmetic the script relies on
      (division, multiplication, [toFixed(2)], [ToNumber] of a decimal
      string, [Math.round], comparisons);
    - [getResourceType], [analyzeBundleSize], [generateRecommendations],
      [calculateOverallScore], [generateOverallSummary]: the pure part;
    - [analyzePage], [saveResults], [runFullAnalysis] and the CLI entry:
      the effectful part, over a small exception-and-trace monad whose
      external calls (browser, clock, file system) are answered by an
      explicit environment;
    - [getWebVitals_callback], [getResourceMetrics_callback]: the functions
      that [getWebVitals] and [getResourceMetrics] evaluate in the page, over
      the timing entries and library reports found there.

    Numbers that the script keeps integral (string lengths, byte offsets,
    millisecond clock readings and their sums) are modelled by [Z]; this is
    exact for magnitudes below 2^53, the range in which JavaScript numbers
    are exact integers. *)

From Stdlib Require Import ZArith Lia Ascii String DecimalString DecimalN.
From stdpp Require Import gmap strings list sorting.

Local Open Scope Z_scope.

(** ** IEEE doubles *)

Module Double.

(** A finite double is [mant * 2^expo]; normal values produced by
    [round_ratio] have [2^52 <= |mant| < 2^53], zero is [0 * 2^0].  The
    exponent range of binary64 (-1074 .. 971) is not enforced: the
    quantities of the script are quotients of safe integers and stay far
    inside it. *)
Record double := { mant : Z; expo : Z }.

Inductive number :=
| NaN
| Inf (neg : bool)
| Fin (d : double).

Definition zero : double := {| mant := 0; expo := 0 |}.

Definition dopp (x : double) : double :=
  {| mant := - mant x; expo := expo x |}.

(** floor (log2 (p / q)) for positive [p] and [q]. *)
Definition ilog2_ratio (p q : Z) : Z :=
  let d := Z.log2 p - Z.log2 q in
  if q * 2 ^ Z.max 0 d <=? p * 2 ^ Z.max 0 (- d) then d else d - 1.

(** [n / d] rounded to the nearest integer, ties to even ([0 <= n], [0 < d]). *)
Definition rne (n d : Z) : Z :=
  let k := n / d in
  match 2 * (n mod d) ?= d with
  | Lt => k
  | Gt => k + 1
  | Eq => if Z.even k then k else k + 1
  end.

(** The double nearest to [p / q], for positive [p] and [q]: 53 significant
    bits, round to nearest, ties to even. *)
Definition round_pos (p q : Z) : double :=
  let e := ilog2_ratio p q - 52 in
  let m := rne (p * 2 ^ Z.max 0 (- e)) (q * 2 ^ Z.max 0 e) in
  if m =? 2 ^ 53 then {| mant := 2 ^ 52; expo := e + 1 |}
  else {| mant := m; expo := e |}.

(** The double nearest to the rational [p / q] ([0 < q]). *)
Definition round_ratio (p q : Z) : double :=
  match p with
  | 0 => zero
  | Zpos _ => round_pos p q
  | Zneg _ => dopp (round_pos (- p) q)
  end.

(** An integer as a double (exact below 2^53). *)
Definition of_Z (z : Z) : double := round_ratio z 1.

(** [a / b] on integer-valued numbers. *)
Definition div_int (a b : Z) : number :=
  if b =? 0 then
    if a =? 0 then NaN else Inf (a <? 0)
  else if 0 <? b then Fin (round_ratio a b)
  else Fin (round_ratio (- a) (- b)).

(** [x * y] on finite doubles. *)
Definition mul (x y : double) : double :=
  let e := expo x + expo y in
  round_ratio (mant x * mant y * 2 ^ Z.max 0 e) (2 ^ Z.max 0 (- e)).

(** [x < y] on finite doubles. *)
Definition ltb (x y : double) : bool :=
  let e := Z.min (expo x) (expo y) in
  mant x * 2 ^ (expo x - e) <? mant y * 2 ^ (expo y - e).

(** [x < y] on numbers: every comparison with NaN is false. *)
Definition num_ltb (x y : number) : bool :=
  match x, y with
  | NaN, _ | _, NaN => false
  | Inf true, Inf true => false
  | Inf true, _ => true
  | _, Inf true => false
  | Inf false, _ => false
  | _, Inf false => true
  | Fin a, Fin b => ltb a b
  end.



(** [bounded_by K d]: the double [d] lies between 0 and the integer [K]. *)
Definition bounded_by (K : Z) (d : double) : Prop :=
  expo d <= 0 /\ 0 <= mant d <= K * 2 ^ (- expo d).

Definition dabs (x : double) : double :=
  {| mant := Z.abs (mant x); expo := expo x |}.

(** [Math.round]: the integer nearest to [x], ties towards +infinity;
    NaN and the infinities are returned unchanged. *)
Definition Math_round (x : number) : number :=
  match x with
  | Fin d =>
      Fin (of_Z (if 0 <=? expo d then mant d * 2 ^ expo d
                 else (2 * mant d + 2 ^ (- expo d)) / 2 ^ (1 - expo d)))
  | _ => x
  end.

(** [Math.max(0, z)] on an integer. *)
Definition Math_max0 (z : Z) : Z := Z.max 0 z.

(** *** Decimal strings *)

(** Decimal digits of a natural number, most significant first, "0" for 0. *)
Definition dec (n : Z) : string :=
  NilEmpty.string_of_uint (N.to_uint (Z.to_N n)).

Definition digit (d : Z) : Ascii.ascii :=
  Ascii.ascii_of_N (48 + Z.to_N d).

(** [hundredths x] is the integer [n] for which [n / 100 - x] is as close to
    zero as possible, the larger one when there are two ([0 <= x]). *)
Definition hundredths (x : double) : Z :=
  if 0 <=? expo x then mant x * 2 ^ expo x * 100
  else (mant x * 200 + 2 ^ (- expo x)) / 2 ^ (1 - expo x).

(** The digits of [n], padded to three, with a point before the last two. *)
Definition fixed2 (neg : bool) (n : Z) : string :=
  (if neg then "-" else "")
  +:+ dec (n / 100)
  +:+ String "."%char (String (digit (n mod 100 / 10)) (String (digit (n mod 10)) "")).

(** JavaScript values that reach the utilisation field and the scoring
    comparisons: a number, a string given by its characters, and
    [JExpStr x], the string [ToString(x)] of a double of magnitude at least
    10^21 (exponent notation), whose characters are not spelled out and
    which [ToNumber] turns back into [x]. *)
Inductive jsval :=
| JNum (x : number)
| JStr (s : string)
| JExpStr (x : double).

(** [Number.prototype.toFixed(2)]: a sign for negative [x], then fixed
    notation with two fraction digits; from 10^21 on, and for NaN and the
    infinities, [ToString(x)]. *)
Definition toFixed2 (x : number) : jsval :=
  match x with
  | NaN => JStr "NaN"
  | Inf neg => JStr (if neg then "-Infinity" else "Infinity")
  | Fin d =>
      if ltb (dabs d) (of_Z (10 ^ 21))
      then JStr (fixed2 (mant d <? 0) (hundredths (dabs d)))
      else JExpStr d
  end.

(** Splits at the first point. *)
Fixpoint split_dot (s : string) : string * option string :=
  match s with
  | EmptyString => (EmptyString, None)
  | String c r =>
      if Ascii.eqb c "."%char then (EmptyString, Some r)
      else let (a, b) := split_dot r in (String c a, b)
  end.

Definition digits_value (s : string) : option Z :=
  match NilEmpty.uint_of_string s with
  | Some u => Some (Z.of_N (N.of_uint u))
  | None => None
  end.

(** An unsigned decimal literal [digits], [digits.], [digits.digits] or
    [.digits] as a fraction (numerator, denominator). *)
Definition parse_unsigned (s : string) : option (Z * Z) :=
  let (ip, fp) := split_dot s in
  let fp := default EmptyString fp in
  if String.eqb ip "" && String.eqb fp "" then None
  else
    match digits_value ip, digits_value fp with
    | Some i, Some f =>
        let q := 10 ^ Z.of_nat (String.length fp) in
        Some (i * q + f, q)
    | _, _ => None
    end.

(** [ToNumber] of a string, for the signed decimal literals without exponent
    part (the form [toFixed] writes) and for [Infinity]; the empty string is
    0.  Surrounding white space, exponent parts and radix prefixes are
    outside the model: such strings are treated like the strings that are
    not numeric literals. *)
Definition StringToNumber (s : string) : number :=
  match s with
  | EmptyString => Fin zero
  | String c r =>
      if Ascii.eqb c "-"%char then
        if String.eqb r "Infinity" then Inf true
        else
          match parse_unsigned r with
          | Some (p, q) => Fin (round_ratio (- p) q)
          | None => NaN
          end
      else
        let u := if Ascii.eqb c "+"%char then r else s in
        if String.eqb u "Infinity" then Inf false
        else
          match parse_unsigned u with
          | Some (p, q) => Fin (round_ratio p q)
          | None => NaN
          end
  end.


Definition ToNumber (v : jsval) : number :=
  match v with
  | JNum x => x
  | JStr s => StringToNumber s
  | JExpStr x => Fin x
  end.

(** [v < k] for a value [v] and an integer literal [k]: the operands not
    being two strings, both are converted by [ToNumber]. *)
Definition js_lt (v : jsval) (k : Z) : bool :=
  num_ltb (ToNumber v) (Fin (of_Z k)).

End Double.

Import Double.

(** ** Coverage-based bundle analysis *)

(** A used range of a covered text; [end] is [end_] here. *)
Record range := { start : Z; end_ : Z }.

(** A coverage entry as the browser reports it; a character of [text]
    stands for one UTF-16 code unit, so that [text.length] is
    [String.length text]. *)
Record coverageEntry := { text : string; ranges : list range }.

Record BundleStat := {
  totalSize : Z;
  usedSize : Z;
  unusedSize : Z;
  utilizationRate : jsval
}.

Record BundleAnalysis := { javascript : BundleStat; css : BundleStat }.

(** One pass of the outer [forEach]: the pair (total, used) after an entry. *)
Definition addCoverage (acc : Z * Z) (coverage : coverageEntry) : Z * Z :=
  let total := fst acc + Z.of_nat (String.length (text coverage)) in
  let used :=
    fold_left (fun used range => used + (end_ range - start range))
              (ranges coverage) (snd acc) in
  (total, used).

(** [used / total * 100] *)
Definition percentOf (used total : Z) : number :=
  match div_int used total with
  | Fin x => Fin (mul x (of_Z 100))
  | other => other
  end.

(** [total > 0 ? (used / total * 100).toFixed(2) : 0] *)
Definition rateOf (used total : Z) : jsval :=
  if 0 <? total then toFixed2 (percentOf used total)
  else JNum (Fin zero).

Definition statOf (sizes : Z * Z) : BundleStat :=
  {| totalSize := fst sizes;
     usedSize := snd sizes;
     unusedSize := fst sizes - snd sizes;
     utilizationRate := rateOf (snd sizes) (fst sizes) |}.

Definition analyzeBundleSize (jsCoverage cssCoverage : list coverageEntry)
  : BundleAnalysis :=
  {| javascript := statOf (fold_left addCoverage jsCoverage (0, 0));
     css := statOf (fold_left addCoverage cssCoverage (0, 0)) |}.

(** Coverage as the browser reports it: the ranges of an entry are sorted,
    do not overlap and lie inside the entry's text. *)
Fixpoint ranges_wf (from len : Z) (rs : list range) : Prop :=
  match rs with
  | [] => from <= len
  | r :: rest => from <= start r <= end_ r /\ ranges_wf (end_ r) len rest
  end.

Definition entry_wf (c : coverageEntry) : Prop :=
  ranges_wf 0 (Z.of_nat (String.length (text c))) (ranges c).

Definition coverage_wf (l : list coverageEntry) : Prop := Forall entry_wf l.


(** ** Resource classification *)

Inductive resourceType := scripts | stylesheets | images | fonts | other.

(** The pattern [\.(a1|a2|...)$] tried at the start of [s]: a point, one of
    the alternatives, the end of the input. *)
Definition match_here (alts : list string) (s : string) : bool :=
  match s with
  | String c r => Ascii.eqb c "."%char && existsb (String.eqb r) alts
  | EmptyString => false
  end.

(** [url.match(/\.(a1|a2|...)$/)] finds a match: the pattern is tried at
    every position of [url], from the left. *)
Fixpoint match_ext (alts : list string) (url : string) : bool :=
  match_here alts url ||
  match url with
  | String _ r => match_ext alts r
  | EmptyString => false
  end.

Definition script_exts : list string := ["js"; "jsx"; "ts"; "tsx"].
Definition style_exts : list string := ["css"; "scss"; "sass"].
Definition image_exts : list string :=
  ["jpg"; "jpeg"; "png"; "gif"; "webp"; "avif"; "svg"].
Definition font_exts : list string := ["woff"; "woff2"; "ttf"; "otf"; "eot"].

(** [ends_with suffix s]: some tail of [s] is [suffix]. *)
Fixpoint ends_with (suffix s : string) : bool :=
  String.eqb s suffix ||
  match s with
  | String _ r => ends_with suffix r
  | EmptyString => false
  end.

Definition getResourceType (url : string) : resourceType :=
  if match_ext script_exts url then scripts
  else if match_ext style_exts url then stylesheets
  else if match_ext image_exts url then images
  else if match_ext font_exts url then fonts
  else other.

(** ** Page results *)

(** An entry of [webVitals]. *)
Record Vital := { value : number; rating : string }.

(** An element of [byType]: [name], [size], [duration] and [startTime] of a
    resource. *)
Record ResourceEntry := {
  res_name : string;
  res_size : Z;
  res_duration : number;
  res_startTime : number
}.

(** What [getResourceMetrics] returns; [resourcesTotalSize] is its
    [totalSize]. *)
Record ResourceMetrics := {
  totalResources : Z;
  resourcesTotalSize : Z;
  byType : resourceType -> list ResourceEntry;
  slowestResources : list (string * number)
}.

(** What [getLighthouseMetrics] returns. *)
Record LighthouseMetrics := {
  JSHeapUsedSize : number;
  JSHeapTotalSize : number;
  JSEventListeners : number;
  Nodes : number;
  Documents : number;
  Frames : number;
  TaskDuration : number
}.

(** The [results] object assembled by [analyzePage]; [webVitals] is the
    object keyed by the vital's name. *)
Record Results := {
  pageName : string;
  url : string;
  timestamp : string;
  loadTime : Z;
  webVitals : gmap string Vital;
  resourceMetrics : ResourceMetrics;
  bundleAnalysis : BundleAnalysis;
  lighthouseMetrics : LighthouseMetrics
}.

(** [results.webVitals.<key>?.value > k]: false when the key is absent. *)
Definition vital_gt (vitals : gmap string Vital) (key : string) (k : Z) : bool :=
  match vitals !! key with
  | Some v => num_ltb (Fin (of_Z k)) (value v)
  | None => false
  end.

(** ** Recommendations *)

Definition msg_js : string :=
  "⚠️ **JavaScript utilization is low** - Consider code splitting to reduce unused code".
Definition msg_css : string :=
  "⚠️ **CSS utilization is low** - Remove unused CSS rules or implement critical CSS".
Definition msg_slow : string :=
  "⚠️ **Slow loading time** - Optimize images, enable compression, and implement caching".
Definition msg_resources : string :=
  "⚠️ **Too many resources** - Consider bundling and reducing HTTP requests".
Definition msg_lcp : string :=
  "⚠️ **Poor LCP** - Optimize largest contentful paint by optimizing images and critical resources".
Definition msg_fid : string :=
  "⚠️ **Poor FID** - Reduce JavaScript execution time and optimize event handlers".
Definition msg_great : string :=
  "✅ **Great performance!** - All metrics are within acceptable ranges".

(** [if (cond) recommendations.push(msg)] *)
Definition push_if (cond : bool) (msg : string) (recommendations : list string)
  : list string :=
  if cond then recommendations ++ [msg] else recommendations.

(** The [recommendations] array of [generateRecommendations] before it is
    joined. *)
Definition recommendations (results : Results) : list string :=
  let r := [] in
  let r := push_if (js_lt (utilizationRate (javascript (bundleAnalysis results))) 50)
                   msg_js r in
  let r := push_if (js_lt (utilizationRate (css (bundleAnalysis results))) 60)
                   msg_css r in
  let r := push_if (3000 <? loadTime results) msg_slow r in
  let r := push_if (100 <? totalResources (resourceMetrics results))
                   msg_resources r in
  let r := push_if (vital_gt (webVitals results) "LCP" 2500) msg_lcp r in
  let r := push_if (vital_gt (webVitals results) "FID" 100) msg_fid r in
  push_if (length r =? 0)%nat msg_great r.

(** [Array.prototype.join] with a line feed. *)
Fixpoint join_lines (l : list string) : string :=
  match l with
  | [] => EmptyString
  | [x] => x
  | x :: rest => x +:+ String (Ascii.ascii_of_N 10) (join_lines rest)
  end.

Definition generateRecommendations (results : Results) : string :=
  join_lines (recommendations results).

(** ** Scoring *)

(** [if (cond) pageScore -= k] *)
Definition deduct_if (cond : bool) (k : Z) (pageScore : Z) : Z :=
  if cond then pageScore - k else pageScore.

(** The value of [pageScore] at the end of the loop body of
    [calculateOverallScore], before [Math.max]. *)
Definition pageScore (result : Results) : Z :=
  let s := 100 in
  let s := deduct_if (3000 <? loadTime result) 20 s in
  let s := deduct_if (5000 <? loadTime result) 30 s in
  let s := deduct_if (js_lt (utilizationRate (javascript (bundleAnalysis result))) 50)
                     15 s in
  let s := deduct_if (js_lt (utilizationRate (css (bundleAnalysis result))) 60)
                     10 s in
  let s := deduct_if (vital_gt (webVitals result) "LCP" 2500) 25 s in
  deduct_if (vital_gt (webVitals result) "FID" 100) 20 s.

(** What one page adds to [totalScore]. *)
Definition clampedScore (result : Results) : Z := Math_max0 (pageScore result).

Definition calculateOverallScore (results : list Results) : number :=
  let totalScore :=
    fold_left (fun totalScore result => totalScore + clampedScore result)
              results 0 in
  Math_round (div_int totalScore (Z.of_nat (length results))).

(** ** Overall summary *)

Record Summary := {
  summary_timestamp : string;
  totalPages : Z;
  averageLoadTime : number;
  performanceScore : number
}.

(** The [summary] object of [generateOverallSummary]; [now] is the reading
    of [new Date().toISOString()]. *)
Definition overallSummary (now : string) (results : list Results) : Summary :=
  {| summary_timestamp := now;
     totalPages := Z.of_nat (length results);
     averageLoadTime :=
       div_int (fold_left (fun sum r => sum + loadTime r) results 0)
               (Z.of_nat (length results));
     performanceScore := calculateOverallScore results |}.

(** The JSON text of a flat object, as the list of its members. *)
Inductive jsonValue :=
| JSnull
| JSnumber (d : double)
| JSstring (s : string).

Definition jsonObject := list (string * jsonValue).

(** [JSON.stringify] writes a finite number as that number and NaN and the
    infinities as [null]. *)
Definition json_of_number (x : number) : jsonValue :=
  match x with
  | Fin d => JSnumber d
  | _ => JSnull
  end.

Definition stringify_summary (s : Summary) : jsonObject :=
  [("timestamp", JSstring (summary_timestamp s));
   ("totalPages", JSnumber (of_Z (totalPages s)));
   ("averageLoadTime", json_of_number (averageLoadTime s));
   ("performanceScore", json_of_number (performanceScore s))].

(** ** Effects: browser, clock, console and file system *)

Definition error := string.

Inductive outcome (A : Type) :=
| Ok (a : A)
| Throw (e : error).
Arguments Ok {A} a.
Arguments Throw {A} e.

(** What a file holds.  The per-page JSON file is kept as the record it
    serialises, the Markdown report as the record and the recommendation
    text its template is filled with. *)
Inductive content :=
| ResultsJson (results : Results)
| SummaryReport (results : Results) (recommendations : string)
| SummaryJson (summary : jsonObject).

(** Calls that leave the process.  A browser call is recorded whether it
    returns or throws; a file write is recorded as [WriteFile] when it
    completes and as [WriteFailed] when it throws. *)
Inductive event :=
| Launch
| NewPage
| SetCacheEnabled
| SetViewport
| StartJSCoverage
| StartCSSCoverage
| Goto (url : string)
| EvaluateWebVitals
| EvaluateResourceMetrics
| StopJSCoverage
| StopCSSCoverage
| Metrics
| Close
| WriteFile (path : string) (c : content)
| WriteFailed (path : string)
| ConsoleLog (line : string)
| ConsoleError (line : string)
| Exit (code : Z).

(** A computation: the events it performs, in order, and how it ends. *)
Definition M (A : Type) : Type := list event * outcome A.

Definition ret {A} (a : A) : M A := ([], Ok a).

Definition bind {A B} (c : M A) (k : A -> M B) : M B :=
  match c with
  | (t1, Ok a) => let (t2, r) := k a in (t1 ++ t2, r)
  | (t1, Throw e) => (t1, Throw e)
  end.

Notation "x <- c ;; k" := (bind c (fun x => k))
  (at level 100, c at next level, right associativity).
Notation "c ;;; k" := (bind c (fun _ => k))
  (at level 100, right associativity).

(** [try { body } finally { fin }]: [fin] runs on every exit of [body]; an
    error of [fin] replaces the outcome of [body]. *)
Definition try_finally {A} (body : M A) (fin : M unit) : M A :=
  let (t1, r1) := body in
  let (t2, r2) := fin in
  (t1 ++ t2, match r2 with Throw e => Throw e | Ok _ => r1 end).

(** [try { body } catch (error) { handler }] *)
Definition try_catch {A} (body : M A) (handler : error -> M A) : M A :=
  match body with
  | (t1, Throw e) => let (t2, r) := handler e in (t1 ++ t2, r)
  | (t1, Ok a) => (t1, Ok a)
  end.

(** An external call answered by the environment. *)
Definition call {A} (ev : event) (answer : outcome A) : M A := ([ev], answer).

Definition console_log (line : string) : M unit := ([ConsoleLog line], Ok tt).
Definition console_error (line : string) : M unit := ([ConsoleError line], Ok tt).

(** [fs.writeFileSync(path, c)]; [answer] is the file system's. *)
Definition writeFileSync (path : string) (c : content) (answer : outcome unit)
  : M unit :=
  match answer with
  | Ok _ => ([WriteFile path c], Ok tt)
  | Throw e => ([WriteFailed path], Throw e)
  end.

(** What the outside world answers during the analysis of one page. *)
Record PageEnv := {
  env_launch : outcome unit;
  env_newPage : outcome unit;
  env_setCacheEnabled : outcome unit;
  env_setViewport : outcome unit;
  env_startJSCoverage : outcome unit;
  env_startCSSCoverage : outcome unit;
  env_startTime : Z;
  env_goto : outcome unit;
  env_loadedTime : Z;
  env_webVitals : outcome (gmap string Vital);
  env_resourceMetrics : outcome ResourceMetrics;
  env_stopJSCoverage : outcome (list coverageEntry);
  env_stopCSSCoverage : outcome (list coverageEntry);
  env_metrics : outcome LighthouseMetrics;
  env_isoTime : string;
  env_saveTime : Z;
  env_writeJson : outcome unit;
  env_writeReport : outcome unit;
  env_close : outcome unit
}.

Definition succeeded {A} (o : outcome A) : bool :=
  match o with
  | Ok _ => true
  | Throw _ => false
  end.

(** Every call made for the page returns. *)
Definition page_ok (env : PageEnv) : bool :=
  succeeded (env_launch env) && succeeded (env_newPage env)
  && succeeded (env_setCacheEnabled env) && succeeded (env_setViewport env)
  && succeeded (env_startJSCoverage env) && succeeded (env_startCSSCoverage env)
  && succeeded (env_goto env) && succeeded (env_webVitals env)
  && succeeded (env_resourceMetrics env) && succeeded (env_stopJSCoverage env)
  && succeeded (env_stopCSSCoverage env) && succeeded (env_metrics env)
  && succeeded (env_writeJson env) && succeeded (env_writeReport env)
  && succeeded (env_close env).

(** [path.join(dir, file)]: the segments joined by a separator; of the
    normalisation of the joined path, the removal of a leading [./] is
    modelled. *)
Definition path_join (dir file : string) : string :=
  match dir +:+ "/" +:+ file with
  | String "."%char (String "/"%char rest) => rest
  | joined => joined
  end.

Section Analyzer.

(** [this.baseUrl] and [this.outputDir] *)
Variable baseUrl : string.
Variable outputDir : string.

Definition generateSummaryReport (env : PageEnv) (results : Results)
    (pageName : string) : M unit :=
  let report := SummaryReport results (generateRecommendations results) in
  let reportPath := path_join outputDir (pageName +:+ "-summary.md") in
  writeFileSync reportPath report (env_writeReport env) ;;;
  console_log ("Performance report saved to: " +:+ reportPath).

Definition saveResults (env : PageEnv) (results : Results) (pageName : string)
  : M unit :=
  let fileName := pageName +:+ "-" +:+ dec (env_saveTime env) +:+ ".json" in
  let filePath := path_join outputDir fileName in
  writeFileSync filePath (ResultsJson results) (env_writeJson env) ;;;
  generateSummaryReport env results pageName.

Definition getLighthouseMetrics (env : PageEnv) : M LighthouseMetrics :=
  call Metrics (env_metrics env).

(** The [try] block of [analyzePage]. *)
Definition analyzePage_try (env : PageEnv) (url pageName : string) : M Results :=
  call NewPage (env_newPage env) ;;;
  call SetCacheEnabled (env_setCacheEnabled env) ;;;
  call SetViewport (env_setViewport env) ;;;
  call StartJSCoverage (env_startJSCoverage env) ;;;
  call StartCSSCoverage (env_startCSSCoverage env) ;;;
  let startTime := env_startTime env in
  call (Goto url) (env_goto env) ;;;
  let loadTime := env_loadedTime env - startTime in
  webVitals <- call EvaluateWebVitals (env_webVitals env) ;;
  resourceMetrics <- call EvaluateResourceMetrics (env_resourceMetrics env) ;;
  jsCoverage <- call StopJSCoverage (env_stopJSCoverage env) ;;
  cssCoverage <- call StopCSSCoverage (env_stopCSSCoverage env) ;;
  let bundleAnalysis := analyzeBundleSize jsCoverage cssCoverage in
  lighthouseMetrics <- getLighthouseMetrics env ;;
  let results :=
    {| pageName := pageName;
       url := url;
       timestamp := env_isoTime env;
       loadTime := loadTime;
       webVitals := webVitals;
       resourceMetrics := resourceMetrics;
       bundleAnalysis := bundleAnalysis;
       lighthouseMetrics := lighthouseMetrics |} in
  saveResults env results pageName ;;;
  ret results.

(** [browser = await puppeteer.launch(...)], then the [try] block with
    [await browser.close()] in its [finally]. *)
Definition analyzePage (env : PageEnv) (url pageName : string) : M Results :=
  call Launch (env_launch env) ;;;
  try_finally (analyzePage_try env url pageName)
              (call Close (env_close env)).

(** What the outside world answers during a batch: per page, by its name,
    and for the overall summary. *)
Record BatchEnv := {
  env_page : string -> PageEnv;
  env_summaryTime : string;
  env_writeSummary : outcome unit
}.

Record Page := { page_url : string; page_name : string }.

Definition pages : list Page :=
  [ {| page_url := baseUrl +:+ "/"; page_name := "home" |};
    {| page_url := baseUrl +:+ "/customers"; page_name := "customers" |};
    {| page_url := baseUrl +:+ "/dashboard"; page_name := "dashboard" |};
    {| page_url := baseUrl +:+ "/reports"; page_name := "reports" |} ].

Definition generateOverallSummary (env : BatchEnv) (results : list Results)
  : M unit :=
  let summary := overallSummary (env_summaryTime env) results in
  writeFileSync (path_join outputDir "overall-summary.json")
                (SummaryJson (stringify_summary summary))
                (env_writeSummary env).

(** One turn of the [for] loop of [runFullAnalysis]. *)
Definition analyzeNext (env : BatchEnv) (results : list Results) (page : Page)
  : M (list Results) :=
  try_catch
    (console_log ("Analyzing " +:+ page_name page +:+ "...") ;;;
     result <- analyzePage (env_page env (page_name page))
                           (page_url page) (page_name page) ;;
     console_log ("✅ " +:+ page_name page +:+ " analysis complete") ;;;
     ret (results ++ [result]))
    (fun error =>
       console_error ("❌ Error analyzing " +:+ page_name page +:+ ": " +:+ error) ;;;
       ret results).

Fixpoint for_each {A B} (f : A -> B -> M A) (acc : A) (l : list B) : M A :=
  match l with
  | [] => ret acc
  | x :: rest => acc' <- f acc x ;; for_each f acc' rest
  end.

Definition runFullAnalysis (env : BatchEnv) : M (list Results) :=
  console_log "Starting performance analysis..." ;;;
  results <- for_each (analyzeNext env) [] pages ;;
  generateOverallSummary env results ;;;
  console_log (String (Ascii.ascii_of_N 10)
                 ("Performance analysis complete! Reports saved to: " +:+ outputDir)) ;;;
  ret results.

(** The CLI entry, from its call of [runFullAnalysis] on the analyzer it has
    constructed: exit 0 when the promise resolves, an error line (the error
    shown by its message) and exit 1 when it rejects.  The constructor,
    which creates the output directory before any batch is run, is not part
    of it. *)
Definition main (env : BatchEnv) : list event * Z :=
  match runFullAnalysis env with
  | (t, Ok _) => (t ++ [Exit 0], 0)
  | (t, Throw err) =>
      (t ++ [ConsoleError ("Performance analysis failed: " +:+ err); Exit 1], 1)
  end.

End Analyzer.

(** The pages of a batch whose analysis goes through, and the load time
    measured for a page. *)
Definition ok_pages (baseUrl : string) (env : BatchEnv) : list Page :=
  List.filter (fun p => page_ok (env_page env (page_name p))) (pages baseUrl).

Definition measured (env : BatchEnv) (p : Page) : Z :=
  env_loadedTime (env_page env (page_name p))
  - env_startTime (env_page env (page_name p)).

Definition summaryPath (outputDir : string) : string :=
  path_join outputDir "overall-summary.json".

(** A result that stands for a page: its name and its measured load time. *)
Definition sameAs (env : BatchEnv) (p : Page) (r : Results) : Prop :=
  pageName r = page_name p /\ loadTime r = measured env p.

(** Events of the [try] block: neither a launch nor a close. *)
Definition inner_event (ev : event) : Prop := ev <> Launch /\ ev <> Close.

(** The file at [path] after the events [t]: what the last completed write
    to it left. *)
Fixpoint persisted (t : list event) (path : string) : option content :=
  match t with
  | [] => None
  | ev :: rest =>
      match persisted rest path with
      | Some c => Some c
      | None =>
          match ev with
          | WriteFile p c => if String.eqb p path then Some c else None
          | _ => None
          end
      end
  end.

(** ** Sample data *)

Definition sampleResources : ResourceMetrics :=
  {| totalResources := 42; resourcesTotalSize := 910000;
     byType := fun _ => []; slowestResources := [] |}.

Definition sampleHeap : LighthouseMetrics :=
  {| JSHeapUsedSize := Fin (of_Z 1000); JSHeapTotalSize := Fin (of_Z 2000);
     JSEventListeners := Fin (of_Z 3); Nodes := Fin (of_Z 4);
     Documents := Fin (of_Z 1); Frames := Fin (of_Z 1);
     TaskDuration := Fin (of_Z 0) |}.

(** A text of [len] characters whose first [used] are covered. *)
Definition covered (len used : nat) : coverageEntry :=
  {| text := String.string_of_list_ascii (repeat "x"%char len);
     ranges := [ {| start := 0; end_ := Z.of_nat used |} ] |}.

Definition sampleResult (load : Z) (js css : nat) (vitals : gmap string Vital)
  : Results :=
  {| pageName := "home"; url := "http://localhost:3000/";
     timestamp := "2024-01-01T00:00:00.000Z"; loadTime := load;
     webVitals := vitals; resourceMetrics := sampleResources;
     bundleAnalysis := analyzeBundleSize [covered 100 js] [covered 100 css];
     lighthouseMetrics := sampleHeap |}.

Definition vital (v : Z) (r : string) : Vital :=
  {| value := Fin (of_Z v); rating := r |}.

(** A page whose navigation and per-page JSON write answer as given and
    whose other calls return. *)
Definition samplePage (goto writeJson : outcome unit) (start loaded : Z)
  : PageEnv :=
  {| env_launch := Ok tt; env_newPage := Ok tt; env_setCacheEnabled := Ok tt;
     env_setViewport := Ok tt; env_startJSCoverage := Ok tt;
     env_startCSSCoverage := Ok tt; env_startTime := start; env_goto := goto;
     env_loadedTime := loaded; env_webVitals := Ok ∅;
     env_resourceMetrics := Ok sampleResources;
     env_stopJSCoverage := Ok [covered 100 80];
     env_stopCSSCoverage := Ok [covered 100 90];
     env_metrics := Ok sampleHeap; env_isoTime := "2024-01-01T00:00:00.000Z";
     env_saveTime := 1704067200000; env_writeJson := writeJson;
     env_writeReport := Ok tt; env_close := Ok tt |}.

Definition sampleBatch (home customers dashboard reports : PageEnv)
    (writeSummary : outcome unit) : BatchEnv :=
  {| env_page := fun name =>
       if String.eqb name "home" then home
       else if String.eqb name "customers" then customers
       else if String.eqb name "dashboard" then dashboard
       else reports;
     env_summaryTime := "2024-01-01T00:01:00.000Z";
     env_writeSummary := writeSummary |}.

Definition goodPage (start loaded : Z) : PageEnv :=
  samplePage (Ok tt) (Ok tt) start loaded.

Definition unreachablePage : PageEnv :=
  samplePage (Throw "Navigation timeout of 30000 ms exceeded") (Ok tt) 0 30000.

Definition readOnlyPage : PageEnv :=
  samplePage (Ok tt) (Throw "EACCES: permission denied") 0 1000.

Definition sampleOutputDir : string := "./performance-reports".
Definition sampleBaseUrl : string := "http://localhost:3000".

(** Two of the four pages cannot be reached. *)
Definition twoOfFour : BatchEnv :=
  sampleBatch (goodPage 100 1300) unreachablePage unreachablePage
              (goodPage 50 1850) (Ok tt).

Definition allFail : BatchEnv :=
  sampleBatch unreachablePage unreachablePage unreachablePage unreachablePage
              (Ok tt).

(** The JSON file of the first page cannot be written. *)
Definition oneWriteFails : BatchEnv :=
  sampleBatch readOnlyPage (goodPage 0 1000) (goodPage 0 1000) (goodPage 0 1000)
              (Ok tt).

(** The overall summary cannot be written. *)
Definition summaryFails : BatchEnv :=
  sampleBatch (goodPage 0 1000) (goodPage 0 1000) (goodPage 0 1000)
              (goodPage 0 1000) (Throw "ENOSPC: no space left on device").


(** ** Notions used in the proofs *)

(** [is_ilog f p q]: 2^f <= p / q < 2^(f+1), without fractions. *)
Definition is_ilog (f p q : Z) : Prop :=
  q * 2 ^ Z.max 0 f <= p * 2 ^ Z.max 0 (- f)
  /\ p * 2 ^ Z.max 0 (- (f + 1)) < q * 2 ^ Z.max 0 (f + 1).

(** [unrelated s alts]: no alternative's suffix is a suffix of [s] or has [s]
    as a suffix. *)
Definition unrelated (s : string) (alts : list string) : bool :=
  forallb (fun a => negb (ends_with (String "."%char a) s)
                    && negb (ends_with s (String "."%char a))) alts.

Definition all_exts : list string :=
  script_exts ++ style_exts ++ image_exts ++ font_exts.

(** ** Views of a batch *)

Definition is_session (ev : event) : bool :=
  match ev with
  | Launch | Close => true
  | _ => false
  end.

Definition is_write (ev : event) : bool :=
  match ev with
  | WriteFile _ _ | WriteFailed _ => true
  | _ => false
  end.

(** The [results] object that [analyzePage] assembles, when every call of
    the [try] block before [saveResults] returns. *)
Definition assembled (env : PageEnv) (url pageName : string) : option Results :=
  match env_newPage env, env_setCacheEnabled env, env_setViewport env with
  | Ok _, Ok _, Ok _ =>
      match env_startJSCoverage env, env_startCSSCoverage env, env_goto env with
      | Ok _, Ok _, Ok _ =>
          match env_webVitals env, env_resourceMetrics env with
          | Ok webVitals, Ok resourceMetrics =>
              match env_stopJSCoverage env, env_stopCSSCoverage env,
                    env_metrics env with
              | Ok jsCoverage, Ok cssCoverage, Ok lighthouseMetrics =>
                  Some {| pageName := pageName;
                          url := url;
                          timestamp := env_isoTime env;
                          loadTime := env_loadedTime env - env_startTime env;
                          webVitals := webVitals;
                          resourceMetrics := resourceMetrics;
                          bundleAnalysis :=
                            analyzeBundleSize jsCoverage cssCoverage;
                          lighthouseMetrics := lighthouseMetrics |}
              | _, _, _ => None
              end
          | _, _ => None
          end
      | _, _, _ => None
      end
  | _, _, _ => None
  end.

(** The paths of the two files of a page. *)
Definition jsonPath (outputDir : string) (env : PageEnv) (pageName : string)
  : string :=
  path_join outputDir (pageName +:+ "-" +:+ dec (env_saveTime env) +:+ ".json").

Definition reportPath (outputDir pageName : string) : string :=
  path_join outputDir (pageName +:+ "-summary.md").

(** The writes of a page, as far as they get. *)
Definition pageWrites (outputDir : string) (env : PageEnv) (url pageName : string)
  : list event :=
  match env_launch env, assembled env url pageName with
  | Ok _, Some results =>
      match env_writeJson env with
      | Throw _ => [WriteFailed (jsonPath outputDir env pageName)]
      | Ok _ =>
          [WriteFile (jsonPath outputDir env pageName) (ResultsJson results);
           match env_writeReport env with
           | Ok _ =>
               WriteFile (reportPath outputDir pageName)
                         (SummaryReport results (generateRecommendations results))
           | Throw _ => WriteFailed (reportPath outputDir pageName)
           end]
      end
  | _, _ => []
  end.

(** The outcome of the analysis of a page of a batch, the console line that
    closes its turn of the loop, and the events of the turn. *)
Definition pageOutcome (outputDir : string) (env : BatchEnv) (p : Page)
  : outcome Results :=
  snd (analyzePage outputDir (env_page env (page_name p))
                   (page_url p) (page_name p)).

Definition statusLine (outputDir : string) (env : BatchEnv) (p : Page) : event :=
  match pageOutcome outputDir env p with
  | Ok _ => ConsoleLog ("✅ " +:+ page_name p +:+ " analysis complete")
  | Throw e =>
      ConsoleError ("❌ Error analyzing " +:+ page_name p +:+ ": " +:+ e)
  end.

Definition pageTurn (outputDir : string) (env : BatchEnv) (p : Page)
  : list event :=
  ConsoleLog ("Analyzing " +:+ page_name p +:+ "...")
  :: fst (analyzePage outputDir (env_page env (page_name p))
                      (page_url p) (page_name p))
  ++ [statusLine outputDir env p].

(** The results of the pages whose analysis returns, in the order of the
    pages. *)
Definition batchResults (outputDir : string) (env : BatchEnv) (ps : list Page)
  : list Results :=
  flat_map (fun p => match pageOutcome outputDir env p with
                     | Ok r => [r]
                     | Throw _ => []
                     end) ps.

(** The launch and close events of a page. *)
Definition sessionOf (env : BatchEnv) (p : Page) : list event :=
  if succeeded (env_launch (env_page env (page_name p)))
  then [Launch; Close] else [Launch].

Definition is_console_error (ev : event) : bool :=
  match ev with
  | ConsoleError _ => true
  | _ => false
  end.

(** The error line of a page whose analysis throws. *)
Definition errorLines (outputDir : string) (env : BatchEnv) (p : Page)
  : list event :=
  match pageOutcome outputDir env p with
  | Ok _ => []
  | Throw e =>
      [ConsoleError ("❌ Error analyzing " +:+ page_name p +:+ ": " +:+ e)]
  end.

(** ** Sums and membership used in the statements *)

Definition sumZ (l : list Z) : Z := foldr Z.add 0 l.

(** The characters of the texts and of the used ranges of a coverage. *)
Definition textLength (c : coverageEntry) : Z :=
  Z.of_nat (String.length (text c)).

Definition usedLength (c : coverageEntry) : Z :=
  sumZ (map (fun r => end_ r - start r) (ranges c)).


(** Coverage on which the sums of [analyzeBundleSize] are exact: ranges
    that are sorted, do not overlap and lie inside their text, and texts of
    at most 2^53 characters in all, so that every intermediate sum is an
    integer of at most 2^53, which the additions of doubles do not round. *)
Definition exact_coverage (l : list coverageEntry) : Prop :=
  coverage_wf l /\ sumZ (map textLength l) <= 2 ^ 53.

(** [recommendations.includes(msg)] *)
Definition recommends (msg : string) (results : Results) : bool :=
  existsb (String.eqb msg) (recommendations results).

Definition penalty (cond : bool) (k : Z) : Z := if cond then k else 0.

(** ** In-page collectors *)

(** An entry of [performance.getEntriesByType('resource')]: the fields the
    collector reads.  The sizes are absent in browsers that do not report
    them; durations and start times are finite doubles. *)
Record ResourceTiming := {
  rt_name : string;
  rt_transferSize : option Z;
  rt_encodedBodySize : option Z;
  rt_duration : double;
  rt_startTime : double
}.

(** [a || b] on an optional integer: [undefined] and 0 are falsy. *)
Definition or_size (a : option Z) (b : Z) : Z :=
  match a with
  | Some z => if z =? 0 then b else z
  | None => b
  end.

(** [resource.transferSize || resource.encodedBodySize || 0] *)
Definition sizeOf (resource : ResourceTiming) : Z :=
  or_size (rt_transferSize resource) (or_size (rt_encodedBodySize resource) 0).

Definition entryOf (resource : ResourceTiming) : ResourceEntry :=
  {| res_name := rt_name resource;
     res_size := sizeOf resource;
     res_duration := Fin (rt_duration resource);
     res_startTime := Fin (rt_startTime resource) |}.

#[global] Instance resourceType_eq_dec : EqDecision resourceType.
Proof. solve_decision. Defined.

(** One pass of [resources.forEach]: [totalSize] and [resourceTypes] after a
    resource; [classify] is what [this.getResourceType] denotes where the
    callback runs. *)
Definition pushResource (classify : string -> resourceType)
    (acc : Z * (resourceType -> list ResourceEntry)) (resource : ResourceTiming)
  : Z * (resourceType -> list ResourceEntry) :=
  let type := classify (rt_name resource) in
  let size := sizeOf resource in
  (fst acc + size,
   fun t => if decide (t = type) then snd acc t ++ [entryOf resource]
            else snd acc t).

(** [resources.sort((a, b) => b.duration - a.duration)]: the sign of the
    difference of two finite doubles is their order, and the sort is stable,
    so that the result is the stable arrangement by descending duration,
    built here by insertion from the right. *)
Fixpoint insert_desc (r : ResourceTiming) (l : list ResourceTiming)
  : list ResourceTiming :=
  match l with
  | [] => [r]
  | x :: rest =>
      if ltb (rt_duration r) (rt_duration x) then x :: insert_desc r rest
      else r :: l
  end.

Definition sort_desc (l : list ResourceTiming) : list ResourceTiming :=
  foldr insert_desc [] l.

(** The body of the function that [getResourceMetrics] evaluates in the
    page, over the entries of the resource timing buffer, when
    [this.getResourceType] is the function [classify] there. *)
Definition collectResources (classify : string -> resourceType)
    (resources : list ResourceTiming) : ResourceMetrics :=
  let acc := fold_left (pushResource classify) resources (0, fun _ => []) in
  {| totalResources := Z.of_nat (length resources);
     resourcesTotalSize := fst acc;
     byType := snd acc;
     slowestResources :=
       map (fun r => (rt_name r, Fin (rt_duration r)))
           (firstn 5 (sort_desc resources)) |}.

(** The function that [getResourceMetrics] evaluates in the page.  The
    callback reads [this.getResourceType] where it runs: [classify] is that
    function, or [None] when [this] has no such method there, in which case
    the first resource makes the call throw ([None] as the result). *)
Definition getResourceMetrics_callback
    (classify : option (string -> resourceType))
    (resources : list ResourceTiming) : option ResourceMetrics :=
  match classify, resources with
  | Some classify, _ => Some (collectResources classify resources)
  | None, [] => Some (collectResources (fun _ => other) [])
  | None, _ :: _ => None
  end.

(** [a] takes at least as long as [b]. *)
Definition not_faster (a b : ResourceTiming) : Prop :=
  ltb (rt_duration a) (rt_duration b) = false.

(** [r] takes exactly [d]. *)
Definition takes (d : double) (r : ResourceTiming) : bool :=
  negb (ltb (rt_duration r) d) && negb (ltb d (rt_duration r)).

(** The resources of a category. *)
Definition ofType (classify : string -> resourceType) (t : resourceType)
    (resources : list ResourceTiming) : list ResourceTiming :=
  List.filter (fun r => bool_decide (classify (rt_name r) = t)) resources.

Definition all_types : list resourceType :=
  [scripts; stylesheets; images; fonts; other].

(** [x - y] on finite doubles. *)
Definition double_sub (x y : double) : double :=
  let e := Z.min (expo x) (expo y) in
  round_ratio ((mant x * 2 ^ (expo x - e) - mant y * 2 ^ (expo y - e))
               * 2 ^ Z.max 0 e)
              (2 ^ Z.max 0 (- e)).

(** The navigation timing entry: the fields the collector reads. *)
Record NavigationTiming := {
  domContentLoadedEventStart : double;
  domContentLoadedEventEnd : double;
  loadEventStart : double;
  loadEventEnd : double
}.

(** [{ value: v, rating: v < limit ? 'good' : 'needs-improvement' }] *)
Definition fallbackVital (v : double) (limit : Z) : Vital :=
  {| value := Fin v;
     rating := if ltb v (of_Z limit) then "good" else "needs-improvement" |}.

(** [captureVital(name, value, rating)] *)
Definition captureVital (vitals : gmap string Vital) (report : string * Vital)
  : gmap string Vital :=
  <[report.1 := report.2]> vitals.

(** The vitals object that the function [getWebVitals] evaluates in the page
    builds, for the runs in which its calls return.  [library] tells whether
    [getCLS] is defined there; [early] are the reports the library makes
    while it is subscribed to, [late] the ones it makes afterwards, before
    the promise resolves; [navigation] is the first navigation entry, if
    there is one.  The calls of the subscriptions themselves, which may
    throw, are in [getWebVitals_page] below. *)
Definition getWebVitals_callback (library : bool)
    (early late : list (string * Vital)) (navigation : option NavigationTiming)
  : gmap string Vital :=
  let vitals := ∅ in
  let vitals := if library then fold_left captureVital early vitals else vitals in
  let vitals :=
    match navigation with
    | Some nav =>
        let dcl := double_sub (domContentLoadedEventEnd nav)
                              (domContentLoadedEventStart nav) in
        let load := double_sub (loadEventEnd nav) (loadEventStart nav) in
        <["LoadEvent" := fallbackVital load 2500]>
          (<["DOMContentLoaded" := fallbackVital dcl 1500]> vitals)
    | None => vitals
    end in
  if library then fold_left captureVital late vitals else vitals.

(** The fallback measurement stored under a name. *)
Definition fallbackOf (navigation : option NavigationTiming) (name : string)
  : option Vital :=
  match navigation with
  | Some nav =>
      if String.eqb name "LoadEvent" then
        Some (fallbackVital (double_sub (loadEventEnd nav) (loadEventStart nav))
                            2500)
      else if String.eqb name "DOMContentLoaded" then
        Some (fallbackVital (double_sub (domContentLoadedEventEnd nav)
                                        (domContentLoadedEventStart nav))
                            1500)
      else None
  | None => None
  end.









(** ** Further sample data *)



(** A page whose analysis completes and whose browser then fails to
    close. *)
Definition closeFailsPage : PageEnv :=
  {| env_launch := Ok tt; env_newPage := Ok tt; env_setCacheEnabled := Ok tt;
     env_setViewport := Ok tt; env_startJSCoverage := Ok tt;
     env_startCSSCoverage := Ok tt; env_startTime := 0; env_goto := Ok tt;
     env_loadedTime := 1000; env_webVitals := Ok ∅;
     env_resourceMetrics := Ok sampleResources;
     env_stopJSCoverage := Ok [covered 100 80];
     env_stopCSSCoverage := Ok [covered 100 90];
     env_metrics := Ok sampleHeap; env_isoTime := "2024-01-01T00:00:00.000Z";
     env_saveTime := 1704067200000; env_writeJson := Ok tt;
     env_writeReport := Ok tt;
     env_close := Throw "Protocol error: Target closed" |}.

(** A navigation entry: 120 ms of DOMContentLoaded handlers, 30 ms of load
    handlers. *)
Definition sampleNavigation : NavigationTiming :=
  {| domContentLoadedEventStart := of_Z 400;
     domContentLoadedEventEnd := of_Z 520;
     loadEventStart := of_Z 900;
     loadEventEnd := of_Z 930 |}.

(** * Properties *)

(** ** Rounding *)

Section Rounding.

Lemma rne_bounds n d : 0 < d -> n / d <= rne n d <= n / d + 1.
Proof.
  intros Hd. unfold rne.
  destruct (2 * (n mod d) ?= d); [destruct (Z.even (n / d))|..]; lia.
Qed.

Lemma rne_exact n d : 0 < d -> n mod d = 0 -> rne n d = n / d.
Proof.
  intros Hd Hm. unfold rne. rewrite Hm.
  destruct (Z.compare_spec (2 * 0) d); lia.
Qed.

Lemma rne_le n d K : 0 < d -> n <= K * d -> rne n d <= K.
Proof.
  intros Hd Hn.
  destruct (Z.eq_dec (n mod d) 0) as [Hm|Hm].
  - rewrite rne_exact by assumption.
    apply Z.div_le_upper_bound; lia.
  - pose proof (rne_bounds n d Hd).
    pose proof (Z.mod_pos_bound n d Hd).
    pose proof (Z.div_mod n d ltac:(lia)).
    assert (n / d < K) by nia.
    lia.
Qed.

Lemma rne_ge n d K : 0 < d -> K * d <= n -> K <= rne n d.
Proof.
  intros Hd Hn. pose proof (rne_bounds n d Hd).
  assert (K <= n / d) by (apply Z.div_le_lower_bound; lia).
  lia.
Qed.

Lemma ilog2_ratio_upper p q k :
  0 < p -> 0 < q -> 0 <= k -> p < 2 ^ k * q -> ilog2_ratio p q < k.
Proof.
  intros Hp Hq Hk Hlt. unfold ilog2_ratio.
  pose proof (Z.log2_spec p Hp) as [Hp1 Hp2].
  pose proof (Z.log2_spec q Hq) as [Hq1 Hq2].
  pose proof (Z.log2_nonneg p). pose proof (Z.log2_nonneg q).
  set (a := Z.log2 p) in *. set (b := Z.log2 q) in *.
  (* 2^a <= p < 2^k * q < 2^(k + b + 1), hence a <= k + b *)
  assert (Hab : a <= k + b).
  { destruct (Z_lt_le_dec (k + b) a) as [Hc|Hc]; [|lia]. exfalso.
    assert (2 ^ (k + (b + 1)) <= 2 ^ a) by (apply Z.pow_le_mono_r; lia).
    rewrite Z.pow_add_r in H1 by lia.
    assert (0 < 2 ^ k) by (apply Z.pow_pos_nonneg; lia).
    nia. }
  destruct (Z.leb_spec (q * 2 ^ Z.max 0 (a - b)) (p * 2 ^ Z.max 0 (- (a - b)))) as [Hc|Hc];
    [|lia].
  destruct (Z_lt_le_dec (a - b) k) as [Hd|Hd]; [lia|].
  exfalso. assert (a - b = k) as Hek by lia.
  rewrite Hek in Hc. rewrite Z.max_r in Hc by lia.
  rewrite (Z.max_l 0 (- k)) in Hc by lia. simpl in Hc. lia.
Qed.


Lemma round_pos_bounded p q K :
  0 < p -> 0 < q -> p <= K * q -> K < 2 ^ 53 -> bounded_by K (round_pos p q).
Proof.
  intros Hp Hq Hle HK.
  assert (Hlog : ilog2_ratio p q < 53)
    by (apply ilog2_ratio_upper; nia).
  unfold round_pos.
  set (e := ilog2_ratio p q - 52). assert (He : e <= 0) by lia.
  rewrite (Z.max_r 0 (- e)), (Z.max_l 0 e), Z.mul_1_r by lia.
  set (m := rne (p * 2 ^ (- e)) q).
  assert (Hpow : 0 < 2 ^ (- e)) by (apply Z.pow_pos_nonneg; lia).
  assert (Hm1 : m <= K * 2 ^ (- e)) by (apply rne_le; nia).
  assert (Hm0 : 0 <= m) by (apply rne_ge; nia).
  destruct (Z.eqb_spec m (2 ^ 53)) as [Heq|Hne]; unfold bounded_by; simpl.
  - assert (e <> 0) by (intros ->; simpl in *; lia).
    replace (- e) with (1 + - (e + 1)) in Hm1 by lia.
    rewrite Z.pow_add_r in Hm1 by lia.
    change (2 ^ 1) with 2 in Hm1. change (2 ^ 53) with (2 * 2 ^ 52) in Heq.
    lia.
  - lia.
Qed.

Lemma round_ratio_bounded p q K :
  0 <= p -> 0 < q -> p <= K * q -> K < 2 ^ 53 -> bounded_by K (round_ratio p q).
Proof.
  intros Hp Hq Hle HK. destruct p as [|p|p]; simpl.
  - split; simpl; nia.
  - apply round_pos_bounded; lia.
  - lia.
Qed.





End Rounding.

Section RatioInvariance.


Lemma pow2_pos k : 0 < 2 ^ Z.max 0 k.
Proof. apply Z.pow_pos_nonneg; lia. Qed.

Lemma pow2_split a b : 0 <= a -> 0 <= b -> 2 ^ (a + b) = 2 ^ a * 2 ^ b.
Proof. intros. apply Z.pow_add_r; assumption. Qed.

Lemma ilog2_ratio_spec p q : 0 < p -> 0 < q -> is_ilog (ilog2_ratio p q) p q.
Proof.
  intros Hp Hq. unfold ilog2_ratio, is_ilog.
  pose proof (Z.log2_spec p Hp) as [Hp1 Hp2].
  pose proof (Z.log2_spec q Hq) as [Hq1 Hq2].
  pose proof (Z.log2_nonneg p) as Ha. pose proof (Z.log2_nonneg q) as Hb.
  set (a := Z.log2 p) in *. set (b := Z.log2 q) in *.
  replace (Z.succ a) with (a + 1) in Hp2 by lia.
  replace (Z.succ b) with (b + 1) in Hq2 by lia.
  rewrite pow2_split in Hp2, Hq2 by lia. change (2 ^ 1) with 2 in *.
  assert (Pa : 0 < 2 ^ a) by (apply Z.pow_pos_nonneg; lia).
  assert (Pb : 0 < 2 ^ b) by (apply Z.pow_pos_nonneg; lia).
  destruct (Z.leb_spec (q * 2 ^ Z.max 0 (a - b)) (p * 2 ^ Z.max 0 (- (a - b)))) as [Hc|Hc].
  - split; [exact Hc|].
    destruct (Z_le_gt_dec 0 (a - b)) as [Hd|Hd].
    + rewrite (Z.max_l 0 (- (a - b + 1))), (Z.max_r 0 (a - b + 1)) by lia.
      change (2 ^ 0) with 1.
      assert (E : 2 ^ a = 2 ^ b * 2 ^ (a - b))
        by (rewrite <- pow2_split by lia; f_equal; lia).
      rewrite pow2_split by lia. change (2 ^ 1) with 2.
      assert (0 < 2 ^ (a - b)) by (apply Z.pow_pos_nonneg; lia).
      assert (2 ^ b * 2 ^ (a - b) <= q * 2 ^ (a - b))
        by (apply Z.mul_le_mono_nonneg_r; lia).
      lia.
    + rewrite (Z.max_r 0 (- (a - b + 1))), (Z.max_l 0 (a - b + 1)) by lia.
      change (2 ^ 0) with 1.
      assert (E : 2 ^ b = 2 ^ a * 2 * 2 ^ (- (a - b + 1))).
      { replace b with (a + 1 + - (a - b + 1)) at 1 by lia.
        rewrite !pow2_split by lia. reflexivity. }
      assert (0 < 2 ^ (- (a - b + 1))) by (apply Z.pow_pos_nonneg; lia).
      assert (p * 2 ^ (- (a - b + 1)) < 2 ^ a * 2 * 2 ^ (- (a - b + 1)))
        by (apply Z.mul_lt_mono_pos_r; lia).
      lia.
  - replace (a - b - 1 + 1) with (a - b) by lia. split; [|exact Hc].
    destruct (Z_le_gt_dec 1 (a - b)) as [Hd|Hd].
    + rewrite (Z.max_r 0 (a - b - 1)), (Z.max_l 0 (- (a - b - 1))) by lia.
      change (2 ^ 0) with 1.
      assert (E : 2 ^ a = 2 ^ b * 2 * 2 ^ (a - b - 1)).
      { replace a with (b + 1 + (a - b - 1)) at 1 by lia.
        rewrite !pow2_split by lia. reflexivity. }
      assert (0 < 2 ^ (a - b - 1)) by (apply Z.pow_pos_nonneg; lia).
      assert (q * 2 ^ (a - b - 1) < 2 ^ b * 2 * 2 ^ (a - b - 1))
        by (apply Z.mul_lt_mono_pos_r; lia).
      lia.
    + rewrite (Z.max_l 0 (a - b - 1)), (Z.max_r 0 (- (a - b - 1))) by lia.
      change (2 ^ 0) with 1.
      assert (E : 2 ^ (b + 1) = 2 ^ a * 2 ^ (- (a - b - 1)))
        by (rewrite <- pow2_split by lia; f_equal; lia).
      rewrite pow2_split in E by lia. change (2 ^ 1) with 2 in E.
      assert (0 < 2 ^ (- (a - b - 1))) by (apply Z.pow_pos_nonneg; lia).
      assert (2 ^ a * 2 ^ (- (a - b - 1)) <= p * 2 ^ (- (a - b - 1)))
        by (apply Z.mul_le_mono_nonneg_r; lia).
      lia.
Qed.

(** 2^j <= 2^k for j <= k, without fractions. *)
Lemma pow2_cross j k :
  j <= k ->
  2 ^ Z.max 0 j * 2 ^ Z.max 0 (- k) <= 2 ^ Z.max 0 k * 2 ^ Z.max 0 (- j).
Proof.
  intros Hjk. rewrite <- !pow2_split by lia.
  apply Z.pow_le_mono_r; lia.
Qed.

Lemma is_ilog_unique f1 f2 p q :
  0 < p -> 0 < q -> is_ilog f1 p q -> is_ilog f2 p q -> f1 = f2.
Proof.
  assert (Hlt : forall f1 f2, 0 < p -> 0 < q ->
                  is_ilog f1 p q -> is_ilog f2 p q -> f1 < f2 -> False).
  { clear f1 f2. intros f1 f2 Hp Hq [_ U] [L _] Hlt.
    pose proof (pow2_cross (f1 + 1) f2 ltac:(lia)) as C.
    pose proof (pow2_pos (f1 + 1)). pose proof (pow2_pos (- f2)).
    pose proof (pow2_pos f2). pose proof (pow2_pos (- (f1 + 1))).
    set (A := 2 ^ Z.max 0 (f1 + 1)) in *. set (B := 2 ^ Z.max 0 (- f2)) in *.
    set (C' := 2 ^ Z.max 0 f2) in *. set (D := 2 ^ Z.max 0 (- (f1 + 1))) in *.
    assert (p * D * B < q * A * B) by nia.
    assert (q * A * B <= q * C' * D) by nia.
    assert (q * C' * D <= p * B * D) by nia.
    nia. }
  intros Hp Hq H1 H2.
  destruct (Z.lt_trichotomy f1 f2) as [H|[H|H]]; [exfalso; eauto|exact H|exfalso; eauto].
Qed.

Lemma is_ilog_scale f p q c : 0 < c -> is_ilog f p q -> is_ilog f (p * c) (q * c).
Proof. intros Hc [L U]. unfold is_ilog. split; nia. Qed.

Lemma ilog2_ratio_scale p q c :
  0 < p -> 0 < q -> 0 < c -> ilog2_ratio (p * c) (q * c) = ilog2_ratio p q.
Proof.
  intros Hp Hq Hc.
  apply (is_ilog_unique _ _ (p * c) (q * c)); [nia|nia| |].
  - apply ilog2_ratio_spec; nia.
  - apply is_ilog_scale; [assumption|]. apply ilog2_ratio_spec; assumption.
Qed.

Lemma rne_scale n d c : 0 < d -> 0 < c -> rne (n * c) (d * c) = rne n d.
Proof.
  intros Hd Hc. unfold rne.
  rewrite Z.div_mul_cancel_r by lia.
  rewrite Z.mul_mod_distr_r by lia.
  destruct (Z.compare_spec (2 * (n mod d * c)) (d * c));
    destruct (Z.compare_spec (2 * (n mod d)) d); try reflexivity; nia.
Qed.

(** The rounding depends on the ratio only. *)
Lemma round_ratio_scale p q c :
  0 < q -> 0 < c -> round_ratio (p * c) (q * c) = round_ratio p q.
Proof.
  intros Hq Hc.
  assert (Hpos : forall p, 0 < p -> round_pos (p * c) (q * c) = round_pos p q).
  { clear p. intros p Hp. unfold round_pos.
    rewrite ilog2_ratio_scale by assumption.
    set (e := ilog2_ratio p q - 52).
    replace (p * c * 2 ^ Z.max 0 (- e)) with (p * 2 ^ Z.max 0 (- e) * c) by ring.
    replace (q * c * 2 ^ Z.max 0 e) with (q * 2 ^ Z.max 0 e * c) by ring.
    rewrite rne_scale; [reflexivity| |assumption].
    pose proof (pow2_pos e). nia. }
  destruct p as [|p|p].
  - reflexivity.
  - change (round_ratio (Z.pos p * c) (q * c)) with
      (match Z.pos p * c with 0 => zero | Zpos _ => round_pos (Z.pos p * c) (q * c)
       | Zneg _ => dopp (round_pos (- (Z.pos p * c)) (q * c)) end).
    destruct (Z.pos p * c) eqn:E; try lia.
    rewrite <- E. apply Hpos. lia.
  - change (round_ratio (Z.neg p * c) (q * c)) with
      (match Z.neg p * c with 0 => zero | Zpos _ => round_pos (Z.neg p * c) (q * c)
       | Zneg _ => dopp (round_pos (- (Z.neg p * c)) (q * c)) end).
    destruct (Z.neg p * c) eqn:E; try lia.
    rewrite <- E. cbn [round_ratio]. f_equal.
    replace (- (Z.neg p * c)) with (- Z.neg p * c) by ring.
    apply Hpos. lia.
Qed.

(** A quotient that is an integer is that integer. *)
Lemma div_int_exact k n : 0 < n -> div_int (k * n) n = Fin (of_Z k).
Proof.
  intros Hn. unfold div_int, of_Z.
  destruct (Z.eqb_spec n 0); [lia|].
  destruct (Z.ltb_spec 0 n); [|lia].
  f_equal. rewrite <- (round_ratio_scale k 1 n) by lia.
  f_equal. lia.
Qed.

End RatioInvariance.

Section Nearest.

(** [rne n d] is an integer nearest to [n / d]. *)
Lemma rne_nearest n d : 0 < d -> 2 * Z.abs (rne n d * d - n) <= d.
Proof.
  intros Hd. unfold rne.
  pose proof (Z.div_mod n d ltac:(lia)) as E.
  pose proof (Z.mod_pos_bound n d Hd) as B.
  destruct (Z.compare_spec (2 * (n mod d)) d) as [H|H|H];
    [destruct (Z.even (n / d))|..]; nia.
Qed.


End Nearest.

(** ** Decimal strings *)

Section Decimal.

Lemma append_cons c r t : String c r +:+ t = String c (r +:+ t).
Proof. reflexivity. Qed.

Lemma append_empty t : EmptyString +:+ t = t.
Proof. reflexivity. Qed.







End Decimal.

Section Thresholds.

(** Comparing at any common scale. *)
Lemma ltb_scaled x y m :
  m <= expo x -> m <= expo y ->
  ltb x y = (mant x * 2 ^ (expo x - m) <? mant y * 2 ^ (expo y - m)).
Proof.
  intros Hx Hy. unfold ltb. set (e := Z.min (expo x) (expo y)).
  assert (He : m <= e) by (unfold e; lia).
  assert (Ex : 2 ^ (expo x - m) = 2 ^ (expo x - e) * 2 ^ (e - m))
    by (rewrite <- pow2_split by (unfold e; lia); f_equal; lia).
  assert (Ey : 2 ^ (expo y - m) = 2 ^ (expo y - e) * 2 ^ (e - m))
    by (rewrite <- pow2_split by (unfold e; lia); f_equal; lia).
  rewrite Ex, Ey.
  assert (0 < 2 ^ (e - m)) by (apply Z.pow_pos_nonneg; lia).
  destruct (Z.ltb_spec (mant x * 2 ^ (expo x - e)) (mant y * 2 ^ (expo y - e)));
    destruct (Z.ltb_spec (mant x * (2 ^ (expo x - e) * 2 ^ (e - m)))
                         (mant y * (2 ^ (expo y - e) * 2 ^ (e - m))));
    try reflexivity; nia.
Qed.


(** The two forms in which [round_pos] returns its mantissa [m0] at the
    exponent [e0]. *)
Lemma round_pos_forms p q :
  let e0 := ilog2_ratio p q - 52 in
  let m0 := rne (p * 2 ^ Z.max 0 (- e0)) (q * 2 ^ Z.max 0 e0) in
  round_pos p q = {| mant := m0; expo := e0 |}
  \/ (m0 = 2 * 2 ^ 52
      /\ round_pos p q = {| mant := 2 ^ 52; expo := e0 + 1 |}).
Proof.
  cbv zeta. unfold round_pos.
  destruct (Z.eqb_spec (rne (p * 2 ^ Z.max 0 (- (ilog2_ratio p q - 52)))
                            (q * 2 ^ Z.max 0 (ilog2_ratio p q - 52))) (2 ^ 53)) as [E|E].
  - right. split; [exact E|reflexivity].
  - left. reflexivity.
Qed.







End Thresholds.

(** ** Bundle analysis *)

Section Bundle.



Lemma used_fold from len rs acc :
  ranges_wf from len rs ->
  let used := fold_left (fun used range => used + (end_ range - start range)) rs acc in
  acc <= used <= acc + (len - from).
Proof.
  revert from acc. induction rs as [|r rs IH]; intros from acc Hwf; simpl in *.
  - lia.
  - destruct Hwf as [Hr Hrest]. specialize (IH _ (acc + (end_ r - start r)) Hrest).
    simpl in IH. lia.
Qed.

Lemma addCoverage_inv acc c :
  entry_wf c -> 0 <= snd acc <= fst acc ->
  0 <= snd (addCoverage acc c) <= fst (addCoverage acc c).
Proof.
  intros Hwf Hacc. unfold addCoverage. simpl.
  pose proof (used_fold _ _ _ (snd acc) Hwf) as H. simpl in H. lia.
Qed.

Lemma coverage_fold_inv l acc :
  coverage_wf l -> 0 <= snd acc <= fst acc ->
  0 <= snd (fold_left addCoverage l acc) <= fst (fold_left addCoverage l acc).
Proof.
  intros Hwf. revert acc. induction Hwf as [|c l Hc Hl IH]; intros acc Hacc; simpl.
  - assumption.
  - apply IH, addCoverage_inv; assumption.
Qed.

Lemma total_fold_nonneg l acc :
  0 <= fst acc -> 0 <= fst (fold_left addCoverage l acc).
Proof.
  revert acc. induction l as [|c l IH]; intros acc Hacc; simpl; [assumption|].
  apply IH. unfold addCoverage. simpl. lia.
Qed.





End Bundle.

Section BundleTheorems.





End BundleTheorems.






(** ** Resource classification *)

Section Classifier.

Lemma existsb_orb {A} (f g : A -> bool) l :
  existsb (fun a => f a || g a) l = existsb f l || existsb g l.
Proof.
  induction l as [|a l IH]; simpl; [reflexivity|].
  rewrite IH. destruct (f a), (g a), (existsb f l), (existsb g l); reflexivity.
Qed.

Lemma match_here_eqb alts c r :
  match_here alts (String c r)
  = existsb (fun a => String.eqb (String c r) (String "."%char a)) alts.
Proof.
  cbn [match_here]. induction alts as [|a alts IH]; cbn [existsb].
  - apply andb_false_r.
  - rewrite <- IH. cbn [String.eqb].
    destruct (Ascii.eqb c "."%char); reflexivity.
Qed.

(** The search of the pattern finds a match exactly when the URL ends with a
    point followed by one of the alternatives. *)
Lemma match_ext_ends alts url :
  match_ext alts url = existsb (fun a => ends_with (String "."%char a) url) alts.
Proof.
  induction url as [|c r IH].
  - simpl. induction alts as [|a alts IHa]; simpl; [reflexivity|exact IHa].
  - cbn [match_ext ends_with]. rewrite IH, match_here_eqb.
    rewrite existsb_orb. reflexivity.
Qed.

(** Two suffixes of one string: one of them is a suffix of the other. *)
Lemma ends_with_chain a b url :
  ends_with a url = true -> ends_with b url = true ->
  ends_with b a = true \/ ends_with a b = true.
Proof.
  induction url as [|c r IH]; cbn [ends_with]; intros Ha Hb.
  - rewrite orb_false_r in Ha, Hb.
    apply String.eqb_eq in Ha, Hb. subst a b. left. reflexivity.
  - apply orb_true_iff in Ha, Hb.
    destruct Ha as [Ha|Ha].
    + apply String.eqb_eq in Ha. subst a. left.
      cbn [ends_with]. apply orb_true_iff. exact Hb.
    + destruct Hb as [Hb|Hb].
      * apply String.eqb_eq in Hb. subst b. right.
        cbn [ends_with]. apply orb_true_iff. right. exact Ha.
      * apply IH; assumption.
Qed.


Lemma match_ext_unrelated s alts url :
  ends_with s url = true -> unrelated s alts = true ->
  match_ext alts url = false.
Proof.
  intros Hs Hun. rewrite match_ext_ends.
  unfold unrelated in Hun.
  induction alts as [|a alts IH]; cbn [forallb existsb] in *; [reflexivity|].
  apply andb_true_iff in Hun as [Ha Hrest].
  apply andb_true_iff in Ha as [H1 H2].
  apply negb_true_iff in H1, H2.
  rewrite (IH Hrest), orb_false_r.
  destruct (ends_with (String "."%char a) url) eqn:E; [|reflexivity].
  destruct (ends_with_chain _ _ _ Hs E); congruence.
Qed.

Lemma match_ext_member a alts url :
  In a alts -> ends_with (String "."%char a) url = true -> match_ext alts url = true.
Proof.
  intros Hin He. rewrite match_ext_ends. apply existsb_exists. eauto.
Qed.

Lemma ends_with_app p s : ends_with s (p +:+ s) = true.
Proof.
  induction p as [|c p IH].
  - rewrite append_empty. destruct s; cbn [ends_with]; rewrite String.eqb_refl; reflexivity.
  - rewrite append_cons. cbn [ends_with]. rewrite IH. apply orb_true_r.
Qed.

Lemma ends_with_split s url :
  ends_with s url = true -> exists p, url = p +:+ s.
Proof.
  induction url as [|c r IH]; cbn [ends_with]; intros H.
  - rewrite orb_false_r in H. apply String.eqb_eq in H. subst. exists EmptyString. reflexivity.
  - apply orb_true_iff in H as [H|H].
    + apply String.eqb_eq in H. subst. exists EmptyString. reflexivity.
    + destruct (IH H) as [p ->]. exists (String c p). reflexivity.
Qed.


(** C8.  A URL that ends in [.woff2] is classified [fonts], a URL that ends
    in [.module.css] is classified [stylesheets], a URL that ends in none of
    the nineteen extensions of the four patterns is classified [other], and
    every URL gets exactly one category. *)
Theorem getResourceType_classes :
  (forall url, ends_with ".woff2" url = true -> getResourceType url = fonts)
  /\ (forall url, ends_with ".module.css" url = true ->
                  getResourceType url = stylesheets)
  /\ (forall url,
        existsb (fun ext => ends_with (String "."%char ext) url) all_exts = false ->
        getResourceType url = other)
  /\ (forall url, exists! c, getResourceType url = c).
Proof.
  split; [|split; [|split]].
  - intros url H. unfold getResourceType.
    rewrite (match_ext_unrelated _ script_exts _ H) by reflexivity.
    rewrite (match_ext_unrelated _ style_exts _ H) by reflexivity.
    rewrite (match_ext_unrelated _ image_exts _ H) by reflexivity.
    rewrite (match_ext_member "woff2" font_exts url) by (simpl; tauto || assumption).
    reflexivity.
  - intros url H. unfold getResourceType.
    rewrite (match_ext_unrelated _ script_exts _ H) by reflexivity.
    assert (Hc : ends_with ".css" url = true).
    { destruct (ends_with_split _ _ H) as [p ->].
      change ".module.css"%string with (".module" +:+ ".css").
      induction p as [|c p IHp].
      - reflexivity.
      - rewrite append_cons. cbn [ends_with]. rewrite IHp; [apply orb_true_r|].
        apply ends_with_app. }
    rewrite (match_ext_member "css" style_exts url) by (simpl; tauto || assumption).
    reflexivity.
  - intros url H. unfold all_exts in H.
    rewrite !existsb_app in H.
    apply orb_false_iff in H as [H1 H].
    apply orb_false_iff in H as [H2 H].
    apply orb_false_iff in H as [H3 H4].
    unfold getResourceType. rewrite !match_ext_ends, H1, H2, H3, H4.
    reflexivity.
  - intros url. exists (getResourceType url). split; [reflexivity|]. intros c Hc. exact Hc.
Qed.

Lemma getResourceType_witness :
  getResourceType "https://cdn.example/fonts/inter.woff2" = fonts
  /\ getResourceType "/static/app.module.css" = stylesheets
  /\ getResourceType "/api/customers.json?page=2" = other.
Proof.
  destruct getResourceType_classes as (Hf & Hs & Ho & _).
  split; [apply Hf; reflexivity|split; [apply Hs; reflexivity|apply Ho; reflexivity]].
Defined.

End Classifier.

(** ** Scoring *)

Section Scoring.

(** C4.  A result with a load time of 4000 ms, JavaScript utilisation 40,
    CSS utilisation 70, neither LCP nor FID and at most 100 resources scores
    100 - 20 - 15 = 65, alone in a batch too, and gets exactly two
    recommendations: low JavaScript utilisation and slow loading. *)
Theorem score_slow_low_js (r : Results) :
  loadTime r = 4000 ->
  ToNumber (utilizationRate (javascript (bundleAnalysis r))) = Fin (of_Z 40) ->
  ToNumber (utilizationRate (css (bundleAnalysis r))) = Fin (of_Z 70) ->
  webVitals r !! "LCP" = None ->
  webVitals r !! "FID" = None ->
  totalResources (resourceMetrics r) <= 100 ->
  pageScore r = 65
  /\ clampedScore r = 65
  /\ calculateOverallScore [r] = Fin (of_Z 65)
  /\ recommendations r = [msg_js; msg_slow]
  /\ generateRecommendations r = msg_js +:+ String (Ascii.ascii_of_N 10) msg_slow.
Proof.
  intros Hl Hjs Hcss Hlcp Hfid Hres.
  assert (Hs : pageScore r = 65).
  { unfold pageScore, js_lt, vital_gt. rewrite Hl, Hjs, Hcss, Hlcp, Hfid. reflexivity. }
  assert (Hr : recommendations r = [msg_js; msg_slow]).
  { unfold recommendations, js_lt, vital_gt. rewrite Hl, Hjs, Hcss, Hlcp, Hfid.
    destruct (Z.ltb_spec 100 (totalResources (resourceMetrics r))); [lia|].
    reflexivity. }
  split; [exact Hs|]. split; [unfold clampedScore; rewrite Hs; reflexivity|].
  split; [|split; [exact Hr|]].
  - unfold calculateOverallScore, clampedScore. simpl. rewrite Hs. reflexivity.
  - unfold generateRecommendations. rewrite Hr. reflexivity.
Qed.

Lemma score_slow_low_js_witness :
  let r := sampleResult 4000 40 70 ∅ in
  utilizationRate (javascript (bundleAnalysis r)) = JStr "40.00"
  /\ utilizationRate (css (bundleAnalysis r)) = JStr "70.00"
  /\ calculateOverallScore [r] = Fin (of_Z 65)
  /\ recommendations r = [msg_js; msg_slow].
Proof.
  intros r.
  split; [reflexivity|]. split; [reflexivity|].
  destruct (score_slow_low_js r) as (_ & _ & H1 & H2 & _);
    [reflexivity | reflexivity | reflexivity | reflexivity | reflexivity
    | simpl; lia | ].
  split; assumption.
Defined.

(** C5.  A result with a load time of 6000 ms, utilisation 80 for both
    classes, an LCP of 3000 ms and a FID of 150 ms scores
    100 - 20 - 30 - 25 - 20 = 5: both load-time deductions apply. *)
Theorem score_very_slow_poor_vitals (r : Results) (lcp fid : Vital) :
  loadTime r = 6000 ->
  ToNumber (utilizationRate (javascript (bundleAnalysis r))) = Fin (of_Z 80) ->
  ToNumber (utilizationRate (css (bundleAnalysis r))) = Fin (of_Z 80) ->
  webVitals r !! "LCP" = Some lcp -> value lcp = Fin (of_Z 3000) ->
  webVitals r !! "FID" = Some fid -> value fid = Fin (of_Z 150) ->
  pageScore r = 100 - 20 - 30 - 25 - 20
  /\ clampedScore r = 5
  /\ calculateOverallScore [r] = Fin (of_Z 5).
Proof.
  intros Hl Hjs Hcss Hlcp Hv1 Hfid Hv2.
  assert (Hs : pageScore r = 5).
  { unfold pageScore, js_lt, vital_gt.
    rewrite Hl, Hjs, Hcss, Hlcp, Hfid, Hv1, Hv2. reflexivity. }
  split; [exact Hs|]. split; [unfold clampedScore; rewrite Hs; reflexivity|].
  unfold calculateOverallScore, clampedScore. simpl. rewrite Hs. reflexivity.
Qed.

Lemma score_very_slow_poor_vitals_witness :
  let r := sampleResult 6000 80 80
             (<["LCP" := vital 3000 "needs-improvement"]>
                (<["FID" := vital 150 "needs-improvement"]> ∅)) in
  utilizationRate (javascript (bundleAnalysis r)) = JStr "80.00"
  /\ calculateOverallScore [r] = Fin (of_Z 5).
Proof.
  intros r. split; [reflexivity|].
  destruct (score_very_slow_poor_vitals r (vital 3000 "needs-improvement")
              (vital 150 "needs-improvement")) as (_ & _ & H);
    [reflexivity | reflexivity | reflexivity | reflexivity | reflexivity
    | reflexivity | reflexivity | exact H].
Defined.

Lemma pageScore_range r : -20 <= pageScore r <= 100.
Proof.
  unfold pageScore, deduct_if.
  repeat match goal with |- context [if ?b then _ else _] => destruct b end; lia.
Qed.

Lemma round_bounded d :
  bounded_by 100 d ->
  0 <= (if 0 <=? expo d then mant d * 2 ^ expo d
        else (2 * mant d + 2 ^ (- expo d)) / 2 ^ (1 - expo d)) <= 100.
Proof.
  intros [He [Hm0 Hm1]].
  destruct (Z.leb_spec 0 (expo d)) as [H0|H0].
  - assert (E0 : expo d = 0) by lia. rewrite E0 in *.
    change (2 ^ 0) with 1. change (2 ^ (- 0)) with 1 in Hm1. lia.
  - assert (Hpow : 0 < 2 ^ (- expo d)) by (apply Z.pow_pos_nonneg; lia).
    replace (1 - expo d) with (1 + - expo d) by lia.
    rewrite Z.pow_add_r by lia. change (2 ^ 1) with 2.
    split.
    + apply Z.div_pos; lia.
    + apply Z.lt_succ_r. apply Z.div_lt_upper_bound; lia.
Qed.

Lemma totalScore_bounds rs acc :
  let total := fold_left (fun totalScore result => totalScore + clampedScore result)
                         rs acc in
  acc <= total <= acc + 100 * Z.of_nat (length rs).
Proof.
  revert acc. induction rs as [|r rs IH]; intros acc; cbn [fold_left length].
  - lia.
  - specialize (IH (acc + clampedScore r)). cbv zeta in IH.
    pose proof (pageScore_range r). unfold clampedScore, Math_max0 in *. lia.
Qed.

(** The batch score of at least one page is an integer between 0 and 100. *)
Lemma calculateOverallScore_range rs :
  rs <> [] -> exists k, 0 <= k <= 100 /\ calculateOverallScore rs = Fin (of_Z k).
Proof.
  intros Hne. unfold calculateOverallScore.
  pose proof (totalScore_bounds rs 0) as Hb. cbv zeta in Hb.
  set (total := fold_left _ rs 0) in *.
  assert (Hn : 0 < Z.of_nat (length rs)) by (destruct rs; [congruence|simpl; lia]).
  unfold div_int.
  destruct (Z.eqb_spec (Z.of_nat (length rs)) 0); [lia|].
  destruct (Z.ltb_spec 0 (Z.of_nat (length rs))); [|lia].
  unfold Math_round. eexists. split; [|reflexivity].
  apply round_bounded, round_ratio_bounded; [lia|lia|lia|reflexivity].
Qed.

(** C6.  The score a page adds to the batch total lies between 0 and 100,
    and score and recommendations are functions of the result alone: results
    that agree on load time, bundle analysis, vitals and resource count, and
    so identical results, get the same score and the same recommendations. *)
Theorem score_clamped_deterministic (r : Results) :
  0 <= clampedScore r <= 100
  /\ (forall r',
        loadTime r' = loadTime r ->
        bundleAnalysis r' = bundleAnalysis r ->
        webVitals r' = webVitals r ->
        totalResources (resourceMetrics r') = totalResources (resourceMetrics r) ->
        clampedScore r' = clampedScore r
        /\ recommendations r' = recommendations r
        /\ generateRecommendations r' = generateRecommendations r)
  /\ (forall r', r' = r ->
        (clampedScore r', recommendations r') = (clampedScore r, recommendations r)).
Proof.
  split; [|split].
  - pose proof (pageScore_range r). unfold clampedScore, Math_max0. lia.
  - intros r' Hl Hb Hv Ht.
    assert (Hrec : recommendations r' = recommendations r)
      by (unfold recommendations; rewrite Hl, Hb, Hv, Ht; reflexivity).
    split; [|split].
    + unfold clampedScore, pageScore. rewrite Hl, Hb, Hv. reflexivity.
    + exact Hrec.
    + unfold generateRecommendations. rewrite Hrec. reflexivity.
  - intros r' ->. reflexivity.
Qed.

Lemma score_clamped_deterministic_witness :
  let r := sampleResult 6000 10 10
             (<["LCP" := vital 3000 "poor"]> (<["FID" := vital 150 "poor"]> ∅)) in
  let r' := {| pageName := "again"; url := url r; timestamp := "later";
               loadTime := 6000; webVitals := webVitals r;
               resourceMetrics := resourceMetrics r;
               bundleAnalysis := bundleAnalysis r;
               lighthouseMetrics := lighthouseMetrics r |} in
  pageScore r = -20 /\ clampedScore r = 0
  /\ clampedScore r' = clampedScore r
  /\ recommendations r' = recommendations r.
Proof.
  intros r r'. split; [reflexivity|]. split; [reflexivity|].
  destruct (score_clamped_deterministic r) as (_ & H & _).
  destruct (H r') as (H1 & H2 & _); [reflexivity..|].
  split; assumption.
Defined.

End Scoring.

(** ** Page analysis and batch run *)

Section Batch.

Variable baseUrl outputDir : string.

Ltac unfold_calls :=
  unfold analyzePage_try, saveResults, generateSummaryReport,
    getLighthouseMetrics, writeFileSync, console_log, call, bind, ret.

Ltac next_call :=
  match goal with
  | |- context [match ?o with Ok _ => _ | Throw _ => _ end] =>
      is_var o; destruct o as [?|?]
  end.


Lemma analyzePage_try_events env url name :
  Forall inner_event (fst (analyzePage_try outputDir env url name)).
Proof.
  destruct env. unfold_calls. cbn.
  repeat (next_call; cbn);
    repeat (constructor; [split; discriminate|]); constructor.
Qed.

Lemma analyzePage_try_outcome env url name :
  if succeeded (env_newPage env) && succeeded (env_setCacheEnabled env)
     && succeeded (env_setViewport env)
     && succeeded (env_startJSCoverage env) && succeeded (env_startCSSCoverage env)
     && succeeded (env_goto env) && succeeded (env_webVitals env)
     && succeeded (env_resourceMetrics env) && succeeded (env_stopJSCoverage env)
     && succeeded (env_stopCSSCoverage env) && succeeded (env_metrics env)
     && succeeded (env_writeJson env) && succeeded (env_writeReport env)
  then exists r, snd (analyzePage_try outputDir env url name) = Ok r
                 /\ loadTime r = env_loadedTime env - env_startTime env
                 /\ pageName r = name
  else exists e, snd (analyzePage_try outputDir env url name) = Throw e.
Proof.
  destruct env. unfold_calls. cbn.
  repeat (next_call; cbn); eauto.
Qed.

Lemma analyzePage_eq env url name :
  analyzePage outputDir env url name
  = match env_launch env with
    | Throw e => ([Launch], Throw e)
    | Ok _ =>
        (Launch :: fst (analyzePage_try outputDir env url name) ++ [Close],
         match env_close env with
         | Throw e => Throw e
         | Ok _ => snd (analyzePage_try outputDir env url name)
         end)
    end.
Proof.
  unfold analyzePage, try_finally, bind, call.
  destruct (env_launch env); [|reflexivity].
  destruct (analyzePage_try outputDir env url name) as [t1 r1].
  destruct (env_close env); reflexivity.
Qed.

Lemma analyzePage_outcome env url name :
  if page_ok env
  then exists r, snd (analyzePage outputDir env url name) = Ok r
                 /\ loadTime r = env_loadedTime env - env_startTime env
                 /\ pageName r = name
  else exists e, snd (analyzePage outputDir env url name) = Throw e.
Proof.
  rewrite analyzePage_eq. unfold page_ok.
  pose proof (analyzePage_try_outcome env url name) as H.
  destruct (env_launch env); cbn [succeeded andb]; [|eauto].
  match type of H with if ?c then _ else _ => destruct c end; cbn [andb].
  - destruct (env_close env); cbn [succeeded snd]; [exact H|eauto].
  - destruct (env_close env); cbn [snd]; eauto.
Qed.


Lemma analyzeNext_spec env rs p :
  exists t,
    if page_ok (env_page env (page_name p))
    then exists r, analyzeNext outputDir env rs p = (t, Ok (rs ++ [r]))
                   /\ sameAs env p r
    else analyzeNext outputDir env rs p = (t, Ok rs).
Proof.
  unfold analyzeNext.
  pose proof (analyzePage_outcome (env_page env (page_name p))
                (page_url p) (page_name p)) as H.
  destruct (analyzePage outputDir (env_page env (page_name p))
              (page_url p) (page_name p)) as [t o].
  destruct (page_ok (env_page env (page_name p))).
  - destruct H as (r & Ho & Hl & Hn). cbn [snd] in Ho. subst o.
    eexists. exists r. split; [reflexivity|]. split; assumption.
  - destruct H as (e & Ho). cbn [snd] in Ho. subst o.
    eexists. reflexivity.
Qed.

Lemma for_each_analyzeNext env ps acc :
  exists t rs,
    for_each (analyzeNext outputDir env) acc ps = (t, Ok (acc ++ rs))
    /\ Forall2 (sameAs env)
               (List.filter (fun p => page_ok (env_page env (page_name p))) ps) rs.
Proof.
  revert acc. induction ps as [|p ps IH]; intros acc; cbn [for_each List.filter].
  - exists [], []. rewrite app_nil_r. split; [reflexivity|constructor].
  - destruct (analyzeNext_spec env acc p) as (t & H).
    destruct (page_ok (env_page env (page_name p))).
    + destruct H as (r & -> & Hr).
      destruct (IH (acc ++ [r])) as (t' & rs & E & HF).
      unfold bind. rewrite E. exists (t ++ t'), (r :: rs).
      rewrite <- app_assoc. split; [reflexivity|]. constructor; assumption.
    + rewrite H. destruct (IH acc) as (t' & rs & E & HF).
      unfold bind. rewrite E. exists (t ++ t'), rs. split; [reflexivity|assumption].
Qed.


Lemma runFullAnalysis_spec env :
  exists t rs,
    Forall2 (sameAs env) (ok_pages baseUrl env) rs
    /\ match env_writeSummary env with
       | Ok _ =>
           runFullAnalysis baseUrl outputDir env
           = (t ++ [WriteFile (summaryPath outputDir)
                      (SummaryJson (stringify_summary
                                      (overallSummary (env_summaryTime env) rs)));
                    ConsoleLog (String (Ascii.ascii_of_N 10)
                                  ("Performance analysis complete! Reports saved to: "
                                   +:+ outputDir))],
              Ok rs)
       | Throw e =>
           runFullAnalysis baseUrl outputDir env
           = (t ++ [WriteFailed (summaryPath outputDir)], Throw e)
       end.
Proof.
  destruct (for_each_analyzeNext env (pages baseUrl) []) as (t & rs & E & HF).
  exists (ConsoleLog "Starting performance analysis..." :: t), rs.
  split; [exact HF|].
  unfold runFullAnalysis, generateOverallSummary, writeFileSync, console_log, bind, ret.
  rewrite E. cbn [app]. fold (summaryPath outputDir).
  destruct (env_writeSummary env); cbn [app]; rewrite ?app_nil_r; reflexivity.
Qed.

Lemma persisted_app t1 t2 path :
  persisted (t1 ++ t2) path
  = match persisted t2 path with
    | Some c => Some c
    | None => persisted t1 path
    end.
Proof.
  induction t1 as [|ev t1 IH]; cbn [app persisted].
  - destruct (persisted t2 path); reflexivity.
  - rewrite IH. destruct (persisted t2 path); reflexivity.
Qed.

Lemma sum_loadTime env ps rs acc :
  Forall2 (sameAs env) ps rs ->
  fold_left (fun sum r => sum + loadTime r) rs acc
  = fold_left Z.add (map (measured env) ps) acc.
Proof.
  intros H. revert acc. induction H as [|p r ps rs [_ Hr] _ IH]; intros acc; cbn.
  - reflexivity.
  - rewrite Hr. apply IH.
Qed.

End Batch.

Section BatchTheorems.

Variable baseUrl outputDir : string.

(** C9.  Whenever the browser is launched, the events of [analyzePage] are
    the launch, the events of the [try] block, none of which launches or
    closes a browser, and last the call of [browser.close()]: both when the
    page goes through and a result is returned and when some call throws. *)
Theorem analyzePage_closes_browser env url name :
  succeeded (env_launch env) = true ->
  (exists body,
     fst (analyzePage outputDir env url name) = Launch :: body ++ [Close]
     /\ Forall inner_event body)
  /\ (page_ok env = true ->
      exists r, snd (analyzePage outputDir env url name) = Ok r)
  /\ (page_ok env = false ->
      exists e, snd (analyzePage outputDir env url name) = Throw e).
Proof.
  intros Hl. split; [|split].
  - rewrite analyzePage_eq. destruct (env_launch env); [|discriminate].
    eexists. split; [reflexivity|]. apply analyzePage_try_events.
  - intros Hok. pose proof (analyzePage_outcome outputDir env url name) as H.
    rewrite Hok in H. destruct H as (r & H & _). eauto.
  - intros Hok. pose proof (analyzePage_outcome outputDir env url name) as H.
    rewrite Hok in H. exact H.
Qed.

(** C7.  When the overall summary is written, the file holds a summary whose
    [totalPages] is the number of pages whose analysis went through and whose
    [averageLoadTime] is the sum of the load times measured for those pages
    divided by their number: the double nearest to their mean, and the mean
    itself when it is an integer.  Pages that failed count in neither.  When
    some page went through, the members of the file are spelled out: the
    time stamp, [totalPages] as that number, [averageLoadTime] as that
    quotient and [performanceScore] as an integer between 0 and 100, all
    three written as numbers. *)
Theorem overall_summary_counts_successes env :
  succeeded (env_writeSummary env) = true ->
  let ok := ok_pages baseUrl env in
  let sum := fold_left Z.add (map (measured env) ok) 0 in
  exists summary,
    persisted (fst (runFullAnalysis baseUrl outputDir env)) (summaryPath outputDir)
    = Some (SummaryJson (stringify_summary summary))
    /\ totalPages summary = Z.of_nat (length ok)
    /\ averageLoadTime summary = div_int sum (Z.of_nat (length ok))
    /\ (forall k, ok <> [] -> sum = k * Z.of_nat (length ok) ->
                  averageLoadTime summary = Fin (of_Z k))
    /\ (ok <> [] ->
        exists score,
          0 <= score <= 100
          /\ persisted (fst (runFullAnalysis baseUrl outputDir env))
                       (summaryPath outputDir)
             = Some (SummaryJson
                       [("timestamp", JSstring (env_summaryTime env));
                        ("totalPages", JSnumber (of_Z (Z.of_nat (length ok))));
                        ("averageLoadTime",
                         JSnumber (round_ratio sum (Z.of_nat (length ok))));
                        ("performanceScore", JSnumber (of_Z score))])).
Proof.
  intros Hw ok sum.
  destruct (runFullAnalysis_spec baseUrl outputDir env) as (t & rs & HF & Hrun).
  destruct (env_writeSummary env); [|discriminate].
  exists (overallSummary (env_summaryTime env) rs).
  rewrite Hrun. cbn [fst]. rewrite persisted_app. cbn [persisted].
  rewrite String.eqb_refl.
  assert (Hlen : length rs = length ok) by (symmetry; eapply Forall2_length; exact HF).
  assert (Havg : averageLoadTime (overallSummary (env_summaryTime env) rs)
                 = div_int sum (Z.of_nat (length ok))).
  { unfold overallSummary. cbn [averageLoadTime]. rewrite Hlen.
    f_equal. apply (sum_loadTime env ok rs 0 HF). }
  split; [reflexivity|]. split; [|split; [|split]].
  - unfold overallSummary. cbn [totalPages]. rewrite Hlen. reflexivity.
  - exact Havg.
  - intros k Hne Hk. rewrite Havg, Hk. apply div_int_exact.
    destruct ok; [congruence|cbn [length]; lia].
  - intros Hne.
    assert (Hn : 0 < Z.of_nat (length ok))
      by (destruct ok; [congruence|cbn [length]; lia]).
    assert (Hrs : rs <> []) by (intros ->; cbn [length] in Hlen; lia).
    destruct (calculateOverallScore_range rs Hrs) as (k & Hk & Hscore).
    exists k. split; [exact Hk|].
    unfold stringify_summary. rewrite Havg.
    unfold overallSummary.
    cbn [summary_timestamp totalPages performanceScore].
    rewrite Hscore, Hlen. unfold div_int.
    destruct (Z.eqb_spec (Z.of_nat (length ok)) 0); [lia|].
    destruct (Z.ltb_spec 0 (Z.of_nat (length ok))); [|lia].
    reflexivity.
Qed.

(** C2.  The summary file shows whether there was data.  When no page of the
    batch goes through, the summary is computed from the empty list: average
    load time and score are both NaN, no finite number and in particular not
    0, and the file holds [null] for both, next to [totalPages] 0.  When
    some page goes through, both are finite numbers. *)
Theorem no_data_when_all_pages_fail env :
  succeeded (env_writeSummary env) = true ->
  exists summary,
    persisted (fst (runFullAnalysis baseUrl outputDir env)) (summaryPath outputDir)
    = Some (SummaryJson (stringify_summary summary))
    /\ (ok_pages baseUrl env = [] ->
        summary = overallSummary (env_summaryTime env) []
        /\ averageLoadTime summary = NaN
        /\ performanceScore summary = NaN
        /\ (forall d, averageLoadTime summary <> Fin d
                      /\ performanceScore summary <> Fin d)
        /\ stringify_summary summary
           = [("timestamp", JSstring (env_summaryTime env));
              ("totalPages", JSnumber zero);
              ("averageLoadTime", JSnull);
              ("performanceScore", JSnull)])
    /\ (ok_pages baseUrl env <> [] ->
        exists d k,
          averageLoadTime summary = Fin d
          /\ 0 <= k <= 100 /\ performanceScore summary = Fin (of_Z k)).
Proof.
  intros Hw.
  destruct (runFullAnalysis_spec baseUrl outputDir env) as (t & rs & HF & Hrun).
  destruct (env_writeSummary env); [|discriminate].
  exists (overallSummary (env_summaryTime env) rs).
  rewrite Hrun. cbn [fst]. rewrite persisted_app. cbn [persisted].
  rewrite String.eqb_refl.
  split; [reflexivity|]. split.
  - intros Hnone. rewrite Hnone in HF. inversion HF; subst.
    repeat split; try reflexivity; discriminate.
  - intros Hsome.
    assert (Hrs : rs <> []).
    { intros ->. inversion HF as [E|]. congruence. }
    destruct (calculateOverallScore_range rs Hrs) as (k & Hk & Hscore).
    unfold overallSummary. cbn [averageLoadTime performanceScore].
    assert (Hn : 0 < Z.of_nat (length rs)) by (destruct rs; [congruence|cbn [length]; lia]).
    unfold div_int at 1.
    destruct (Z.eqb_spec (Z.of_nat (length rs)) 0); [lia|].
    destruct (Z.ltb_spec 0 (Z.of_nat (length rs))); [|lia].
    eauto.
Qed.

(** C3, as amended.  The exit code is 1 exactly when the write of the overall
    summary throws: that error is the one [runFullAnalysis] rejects with.
    When that write succeeds the run returns the results of the pages that
    went through and exits with 0; a page whose JSON or report file cannot be
    written is not among them. *)
Theorem only_summary_write_failure_aborts env :
  snd (main baseUrl outputDir env)
  = (if succeeded (env_writeSummary env) then 0 else 1)
  /\ (forall e, env_writeSummary env = Throw e <->
                snd (runFullAnalysis baseUrl outputDir env) = Throw e)
  /\ (exists rs,
        Forall2 (sameAs env) (ok_pages baseUrl env) rs
        /\ (succeeded (env_writeSummary env) = true ->
            snd (runFullAnalysis baseUrl outputDir env) = Ok rs))
  /\ (forall p,
        succeeded (env_writeJson (env_page env (page_name p))) = false
        \/ succeeded (env_writeReport (env_page env (page_name p))) = false ->
        ~ In p (ok_pages baseUrl env)).
Proof.
  destruct (runFullAnalysis_spec baseUrl outputDir env) as (t & rs & HF & Hrun).
  split; [|split; [|split]].
  - unfold main. destruct (env_writeSummary env); rewrite Hrun; reflexivity.
  - intros e. destruct (env_writeSummary env); rewrite Hrun; cbn [snd];
      split; intros H; congruence.
  - exists rs. split; [exact HF|].
    destruct (env_writeSummary env); [|discriminate]. rewrite Hrun. reflexivity.
  - intros p Hfail Hin.
    pose proof (proj1 (List.filter_In _ _ _) Hin) as [_ Hok].
    cbv beta in Hok. unfold page_ok in Hok.
    destruct (succeeded (env_writeJson (env_page env (page_name p))));
      destruct (succeeded (env_writeReport (env_page env (page_name p))));
      rewrite ?andb_false_r in Hok; cbn [andb] in Hok;
      rewrite ?andb_false_r in Hok; destruct Hfail; congruence.
Qed.

End BatchTheorems.


Lemma analyzePage_closes_browser_witness :
  fst (analyzePage sampleOutputDir unreachablePage (sampleBaseUrl +:+ "/reports") "reports")
  = [Launch; NewPage; SetCacheEnabled; SetViewport; StartJSCoverage;
     StartCSSCoverage; Goto (sampleBaseUrl +:+ "/reports"); Close]
  /\ exists e, snd (analyzePage sampleOutputDir unreachablePage (sampleBaseUrl +:+ "/reports") "reports")
               = Throw e.
Proof.
  split; [reflexivity|].
  apply (analyzePage_closes_browser sampleOutputDir unreachablePage); reflexivity.
Defined.


Lemma overall_summary_counts_successes_witness :
  (exists summary,
     persisted (fst (runFullAnalysis sampleBaseUrl sampleOutputDir twoOfFour))
               (summaryPath sampleOutputDir)
     = Some (SummaryJson (stringify_summary summary))
     /\ totalPages summary = 2
     /\ averageLoadTime summary = Fin (of_Z 1500))
  /\ exists score,
       0 <= score <= 100
       /\ persisted (fst (runFullAnalysis sampleBaseUrl sampleOutputDir twoOfFour))
                    (summaryPath sampleOutputDir)
          = Some (SummaryJson
                    [("timestamp", JSstring "2024-01-01T00:01:00.000Z");
                     ("totalPages", JSnumber (of_Z 2));
                     ("averageLoadTime", JSnumber (of_Z 1500));
                     ("performanceScore", JSnumber (of_Z score))]).
Proof.
  destruct (overall_summary_counts_successes sampleBaseUrl sampleOutputDir twoOfFour)
    as (s & H1 & H2 & _ & H3 & H4); [reflexivity|].
  split.
  - exists s. split; [exact H1|]. split; [exact H2|].
    apply H3; [discriminate|reflexivity].
  - destruct H4 as (score & Hs & H4); [discriminate|].
    exists score. split; [exact Hs|]. exact H4.
Defined.


Lemma no_data_when_all_pages_fail_witness :
  persisted (fst (runFullAnalysis sampleBaseUrl sampleOutputDir allFail)) (summaryPath sampleOutputDir)
  = Some (SummaryJson [("timestamp", JSstring "2024-01-01T00:01:00.000Z");
                       ("totalPages", JSnumber zero);
                       ("averageLoadTime", JSnull);
                       ("performanceScore", JSnull)]).
Proof.
  destruct (no_data_when_all_pages_fail sampleBaseUrl sampleOutputDir allFail)
    as (s & H1 & H2 & _); [reflexivity|].
  destruct H2 as (_ & _ & _ & _ & H2); [reflexivity|].
  rewrite H1, H2. reflexivity.
Defined.


(** C3 fails as stated: the JSON file of the first page cannot be written,
    the error is caught and logged by the loop, and the run exits with 0. *)
Lemma page_write_failure_is_caught :
  In (WriteFailed "performance-reports/home-1704067200000.json")
     (fst (main sampleBaseUrl sampleOutputDir oneWriteFails))
  /\ In (ConsoleError "❌ Error analyzing home: EACCES: permission denied")
        (fst (main sampleBaseUrl sampleOutputDir oneWriteFails))
  /\ last (fst (main sampleBaseUrl sampleOutputDir oneWriteFails)) = Some (Exit 0)
  /\ snd (main sampleBaseUrl sampleOutputDir oneWriteFails) = 0.
Proof.
  vm_compute. repeat split; tauto.
Qed.

Lemma only_summary_write_failure_aborts_witness :
  snd (main sampleBaseUrl sampleOutputDir summaryFails) = 1
  /\ snd (runFullAnalysis sampleBaseUrl sampleOutputDir summaryFails)
     = Throw "ENOSPC: no space left on device"
  /\ snd (main sampleBaseUrl sampleOutputDir oneWriteFails) = 0.
Proof.
  destruct (only_summary_write_failure_aborts sampleBaseUrl sampleOutputDir summaryFails)
    as (H1 & H2 & _).
  destruct (only_summary_write_failure_aborts sampleBaseUrl sampleOutputDir oneWriteFails)
    as (H3 & _).
  split; [rewrite H1; reflexivity|].
  split; [apply H2; reflexivity|rewrite H3; reflexivity].
Defined.

(** * Further properties *)

(** ** The batch, event by event *)

Section BatchTrace.

Variable baseUrl outputDir : string.

Ltac unfold_page :=
  unfold analyzePage_try, saveResults, generateSummaryReport,
    getLighthouseMetrics, writeFileSync, console_log, call, bind, ret.

Ltac split_call :=
  match goal with
  | |- context [match ?o with Ok _ => _ | Throw _ => _ end] =>
      is_var o; destruct o as [?|?]
  end.

(** The [try] block against [assembled]: its writes and its outcome. *)
Lemma analyzePage_try_assembled env url name :
  match assembled env url name with
  | None =>
      List.filter is_write (fst (analyzePage_try outputDir env url name)) = []
      /\ exists e, snd (analyzePage_try outputDir env url name) = Throw e
  | Some r =>
      List.filter is_write (fst (analyzePage_try outputDir env url name))
      = match env_writeJson env with
        | Throw _ => [WriteFailed (jsonPath outputDir env name)]
        | Ok _ =>
            [WriteFile (jsonPath outputDir env name) (ResultsJson r);
             match env_writeReport env with
             | Ok _ => WriteFile (reportPath outputDir name)
                                 (SummaryReport r (generateRecommendations r))
             | Throw _ => WriteFailed (reportPath outputDir name)
             end]
        end
      /\ snd (analyzePage_try outputDir env url name)
         = match env_writeJson env, env_writeReport env with
           | Ok _, Ok _ => Ok r
           | Throw e, _ => Throw e
           | Ok _, Throw e => Throw e
           end
  end.
Proof.
  destruct env. unfold assembled, jsonPath, reportPath. unfold_page. cbn.
  repeat (split_call; cbn); eauto.
Qed.

Lemma filter_app_bool {A} (f : A -> bool) l1 l2 :
  List.filter f (l1 ++ l2) = List.filter f l1 ++ List.filter f l2.
Proof. apply List.filter_app. Qed.

Lemma analyzePage_unfold env url name :
  analyzePage outputDir env url name
  = match env_launch env with
    | Throw e => ([Launch], Throw e)
    | Ok _ =>
        (Launch :: fst (analyzePage_try outputDir env url name) ++ [Close],
         match env_close env with
         | Throw e => Throw e
         | Ok _ => snd (analyzePage_try outputDir env url name)
         end)
    end.
Proof.
  unfold analyzePage, try_finally, bind, call.
  destruct (env_launch env); [|reflexivity].
  destruct (analyzePage_try outputDir env url name) as [t1 r1].
  destruct (env_close env); reflexivity.
Qed.

Lemma try_block_no_session env url name :
  List.filter is_session (fst (analyzePage_try outputDir env url name)) = [].
Proof.
  destruct env. unfold_page. cbn.
  repeat (split_call; cbn); reflexivity.
Qed.

(** One turn of the loop: its events are the page's turn, its value the
    results so far with the page's result, if any, appended. *)
Lemma analyzeNext_turn env rs p :
  analyzeNext outputDir env rs p
  = (pageTurn outputDir env p,
     Ok (rs ++ batchResults outputDir env [p])).
Proof.
  unfold analyzeNext, pageTurn, statusLine, batchResults, pageOutcome.
  cbn [flat_map]. rewrite app_nil_r.
  destruct (analyzePage outputDir (env_page env (page_name p))
              (page_url p) (page_name p)) as [t [r|e]];
    unfold try_catch, bind, console_log, console_error, ret; cbn [fst snd app].
  - reflexivity.
  - rewrite app_nil_r. reflexivity.
Qed.

Lemma for_each_turns env ps rs :
  for_each (analyzeNext outputDir env) rs ps
  = (flat_map (pageTurn outputDir env) ps,
     Ok (rs ++ batchResults outputDir env ps)).
Proof.
  revert rs. induction ps as [|p ps IH]; intros rs; cbn [for_each flat_map].
  - unfold ret, batchResults. cbn. rewrite app_nil_r. reflexivity.
  - rewrite analyzeNext_turn. unfold bind. rewrite IH.
    unfold batchResults. cbn [flat_map]. rewrite !app_nil_r, <- app_assoc.
    reflexivity.
Qed.

(** The batch, event by event. *)
Lemma runFullAnalysis_events env :
  runFullAnalysis baseUrl outputDir env
  = let rs := batchResults outputDir env (pages baseUrl) in
    let turns := flat_map (pageTurn outputDir env) (pages baseUrl) in
    match env_writeSummary env with
    | Ok _ =>
        (ConsoleLog "Starting performance analysis..."
         :: turns
         ++ [WriteFile (summaryPath outputDir)
               (SummaryJson (stringify_summary
                               (overallSummary (env_summaryTime env) rs)));
             ConsoleLog (String (Ascii.ascii_of_N 10)
                           ("Performance analysis complete! Reports saved to: "
                            +:+ outputDir))],
         Ok rs)
    | Throw e =>
        (ConsoleLog "Starting performance analysis..."
         :: turns ++ [WriteFailed (summaryPath outputDir)],
         Throw e)
    end.
Proof.
  unfold runFullAnalysis. rewrite for_each_turns. cbn [app].
  unfold generateOverallSummary, writeFileSync, console_log, bind, ret.
  fold (summaryPath outputDir).
  destruct (env_writeSummary env); cbn [app]; rewrite ?app_nil_r; reflexivity.
Qed.

End BatchTrace.

(** ** Browser sessions and error lines of a batch *)

Section BatchSessions.

Variable baseUrl outputDir : string.

Ltac unfold_page :=
  unfold analyzePage_try, saveResults, generateSummaryReport,
    getLighthouseMetrics, writeFileSync, console_log, call, bind, ret.

Ltac split_call :=
  match goal with
  | |- context [match ?o with Ok _ => _ | Throw _ => _ end] =>
      is_var o; destruct o as [?|?]
  end.

Lemma filter_flat_map {A B} (f : B -> bool) (g : A -> list B) l :
  List.filter f (flat_map g l) = flat_map (fun a => List.filter f (g a)) l.
Proof.
  induction l as [|a l IH]; cbn [flat_map]; [reflexivity|].
  rewrite List.filter_app, IH. reflexivity.
Qed.

Lemma flat_map_ext_eq {A B} (f g : A -> list B) l :
  (forall a, f a = g a) -> flat_map f l = flat_map g l.
Proof.
  intros H. induction l as [|a l IH]; cbn [flat_map]; [reflexivity|].
  rewrite H, IH. reflexivity.
Qed.

Lemma analyzePage_sessions env url name :
  List.filter is_session (fst (analyzePage outputDir env url name))
  = if succeeded (env_launch env) then [Launch; Close] else [Launch].
Proof.
  rewrite analyzePage_unfold. destruct (env_launch env); cbn [fst succeeded].
  - cbn [List.filter is_session]. rewrite List.filter_app, try_block_no_session.
    reflexivity.
  - reflexivity.
Qed.

Lemma pageTurn_sessions env p :
  List.filter is_session (pageTurn outputDir env p) = sessionOf env p.
Proof.
  unfold pageTurn, sessionOf. cbn [List.filter is_session].
  rewrite List.filter_app, analyzePage_sessions.
  unfold statusLine. destruct (pageOutcome outputDir env p); cbn; apply app_nil_r.
Qed.

(** X1.  The batch drives one browser at a time: the launch and close
    events of a run are, page by page in the order of the page list, one
    launch followed by one close, or the launch alone when it failed.  No
    browser is launched before the previous one was closed, none is closed
    twice, and every page is attempted whatever happened to the pages
    before it. *)
Theorem batch_sessions_are_sequential env :
  List.filter is_session (fst (runFullAnalysis baseUrl outputDir env))
  = flat_map (sessionOf env) (pages baseUrl).
Proof.
  rewrite runFullAnalysis_events. cbv zeta.
  destruct (env_writeSummary env); cbn [fst List.filter is_session];
    rewrite List.filter_app, filter_flat_map; cbn [List.filter is_session];
    rewrite app_nil_r; apply flat_map_ext_eq; intros p; apply pageTurn_sessions.
Qed.

Lemma try_block_no_console_error env url name :
  List.filter is_console_error (fst (analyzePage_try outputDir env url name)) = [].
Proof.
  destruct env. unfold_page. cbn.
  repeat (split_call; cbn); reflexivity.
Qed.

Lemma analyzePage_no_console_error env url name :
  List.filter is_console_error (fst (analyzePage outputDir env url name)) = [].
Proof.
  rewrite analyzePage_unfold. destruct (env_launch env); cbn [fst]; [|reflexivity].
  cbn [List.filter is_console_error].
  rewrite List.filter_app, try_block_no_console_error. reflexivity.
Qed.

(** X2.  The error lines of a batch are exactly the lines of the pages
    whose analysis throws, one per failing page and in the order of the
    pages; a page that throws with message [e] has its line, with its name
    and [e], in the trace.  [analyzePage] itself never writes to the error
    console. *)
Theorem batch_logs_each_failure_once env :
  List.filter is_console_error (fst (runFullAnalysis baseUrl outputDir env))
  = flat_map (errorLines outputDir env) (pages baseUrl)
  /\ (forall p, In p (pages baseUrl) ->
      forall e, pageOutcome outputDir env p = Throw e ->
      In (ConsoleError ("❌ Error analyzing " +:+ page_name p +:+ ": " +:+ e))
         (fst (runFullAnalysis baseUrl outputDir env))).
Proof.
  assert (Hturn : forall p,
            List.filter is_console_error (pageTurn outputDir env p)
            = errorLines outputDir env p).
  { intros p. unfold pageTurn, errorLines, statusLine.
    cbn [List.filter is_console_error].
    rewrite List.filter_app, analyzePage_no_console_error.
    destruct (pageOutcome outputDir env p); reflexivity. }
  assert (Hall : List.filter is_console_error (fst (runFullAnalysis baseUrl outputDir env))
                 = flat_map (errorLines outputDir env) (pages baseUrl)).
  { rewrite runFullAnalysis_events. cbv zeta.
    destruct (env_writeSummary env); cbn [fst List.filter is_console_error];
      rewrite List.filter_app, filter_flat_map; cbn [List.filter is_console_error];
      rewrite app_nil_r; apply flat_map_ext_eq; exact Hturn. }
  split; [exact Hall|].
  intros p Hp e He.
  apply (proj1 (List.filter_In is_console_error _ _)).
  rewrite Hall. apply in_flat_map. exists p. split; [exact Hp|].
  unfold errorLines. rewrite He. left. reflexivity.
Qed.

End BatchSessions.

(** ** Results and files of a page *)

Section PageFiles.

Variable baseUrl outputDir : string.

(** The outcome of [analyzePage] from the answers of the environment. *)
Lemma analyzePage_outcome_assembled env url name :
  snd (analyzePage outputDir env url name)
  = match env_launch env with
    | Throw e => Throw e
    | Ok _ =>
        match env_close env with
        | Throw e => Throw e
        | Ok _ =>
            match assembled env url name with
            | None => snd (analyzePage_try outputDir env url name)
            | Some r =>
                match env_writeJson env, env_writeReport env with
                | Ok _, Ok _ => Ok r
                | Throw e, _ => Throw e
                | Ok _, Throw e => Throw e
                end
            end
        end
    end.
Proof.
  rewrite analyzePage_unfold.
  pose proof (analyzePage_try_assembled outputDir env url name) as H.
  destruct (env_launch env); [|reflexivity]. cbn [snd].
  destruct (env_close env); [|reflexivity].
  destruct (assembled env url name); [|reflexivity].
  destruct H as [_ H]. exact H.
Qed.

Lemma page_ok_assembled env url name :
  page_ok env = true ->
  exists r, assembled env url name = Some r
            /\ snd (analyzePage outputDir env url name) = Ok r.
Proof.
  intros Hok. rewrite analyzePage_outcome_assembled.
  unfold page_ok in Hok. unfold assembled.
  repeat (apply andb_true_iff in Hok as [Hok ?]).
  repeat match goal with
         | H : succeeded ?o = true |- _ => destruct o; [clear H|discriminate H]
         end.
  eexists. split; reflexivity.
Qed.

Lemma not_page_ok_throws env url name :
  page_ok env = false ->
  exists e, snd (analyzePage outputDir env url name) = Throw e.
Proof.
  intros Hok. pose proof (analyzePage_outcome outputDir env url name) as H.
  rewrite Hok in H. exact H.
Qed.

Lemma batchResults_assembled env ps :
  Forall2 (fun p r => assembled (env_page env (page_name p)) (page_url p)
                               (page_name p) = Some r)
          (List.filter (fun p => page_ok (env_page env (page_name p))) ps)
          (batchResults outputDir env ps).
Proof.
  induction ps as [|p ps IH]; cbn [List.filter batchResults flat_map].
  - constructor.
  - fold (batchResults outputDir env ps). unfold pageOutcome at 1.
    destruct (page_ok (env_page env (page_name p))) eqn:Hok.
    + destruct (page_ok_assembled _ (page_url p) (page_name p) Hok) as (r & Ha & Ho).
      rewrite Ho. cbn [app]. constructor; assumption.
    + destruct (not_page_ok_throws _ (page_url p) (page_name p) Hok) as (e & Ho).
      rewrite Ho. cbn [app]. exact IH.
Qed.

(** X3.  When the overall summary can be written, [runFullAnalysis]
    returns the results of the pages whose calls all return, in the order of
    the page list; each is the object [analyzePage] assembles for that page,
    and carries the page's name. *)
Theorem batch_returns_successes_in_order env :
  succeeded (env_writeSummary env) = true ->
  exists rs,
    snd (runFullAnalysis baseUrl outputDir env) = Ok rs
    /\ Forall2 (fun p r => assembled (env_page env (page_name p)) (page_url p)
                                    (page_name p) = Some r)
               (ok_pages baseUrl env) rs
    /\ map pageName rs = map page_name (ok_pages baseUrl env).
Proof.
  intros Hw. exists (batchResults outputDir env (pages baseUrl)).
  pose proof (batchResults_assembled env (pages baseUrl)) as HF.
  split; [|split].
  - rewrite runFullAnalysis_events. cbv zeta.
    destruct (env_writeSummary env); [reflexivity|discriminate].
  - exact HF.
  - unfold ok_pages. induction HF as [|p r ps rs Hp _ IH]; cbn [map].
    + reflexivity.
    + rewrite IH. f_equal. unfold assembled in Hp.
      repeat match type of Hp with
             | match ?o with _ => _ end = _ => destruct o; try discriminate Hp
             end.
      injection Hp as <-. reflexivity.
Qed.

Lemma analyzePage_writes env url name :
  List.filter is_write (fst (analyzePage outputDir env url name))
  = pageWrites outputDir env url name.
Proof.
  rewrite analyzePage_unfold. unfold pageWrites.
  pose proof (analyzePage_try_assembled outputDir env url name) as H.
  destruct (env_launch env); cbn [fst]; [|reflexivity].
  cbn [List.filter is_write]. rewrite List.filter_app. cbn [List.filter is_write].
  rewrite app_nil_r.
  destruct (assembled env url name); destruct H as [H _]; exact H.
Qed.

(** X4.  The file writes of [analyzePage] are at most two, the JSON file
    followed by the Markdown report; nothing is written when a call before
    [saveResults] fails; and a report is written only for the assembled
    results, at the page's report path, with the recommendations computed
    from those results, and only after the JSON file of the same results
    has been written. *)
Theorem page_files_written env url name :
  List.filter is_write (fst (analyzePage outputDir env url name))
  = pageWrites outputDir env url name
  /\ (assembled env url name = None ->
      List.filter is_write (fst (analyzePage outputDir env url name)) = [])
  /\ (forall path r recs,
        In (WriteFile path (SummaryReport r recs))
           (fst (analyzePage outputDir env url name)) ->
        assembled env url name = Some r
        /\ path = reportPath outputDir name
        /\ recs = generateRecommendations r
        /\ In (WriteFile (jsonPath outputDir env name) (ResultsJson r))
              (fst (analyzePage outputDir env url name))).
Proof.
  pose proof (analyzePage_writes env url name) as E.
  split; [exact E|]. split.
  - intros Hnone. rewrite E. unfold pageWrites. rewrite Hnone.
    destruct (env_launch env); reflexivity.
  - intros path r recs Hin.
    assert (Hw : In (WriteFile path (SummaryReport r recs))
                    (pageWrites outputDir env url name)).
    { rewrite <- E. apply List.filter_In. split; [exact Hin|reflexivity]. }
    assert (Hback : forall ev, In ev (pageWrites outputDir env url name) ->
                               In ev (fst (analyzePage outputDir env url name))).
    { intros ev Hev. rewrite <- E in Hev.
      apply (proj1 (List.filter_In _ _ _) Hev). }
    unfold pageWrites in Hw, Hback.
    destruct (env_launch env); [|destruct Hw].
    destruct (assembled env url name) as [r0|]; [|destruct Hw].
    destruct (env_writeJson env); [|destruct Hw as [Hw|[]]; discriminate Hw].
    destruct Hw as [Hw|[Hw|[]]]; [discriminate Hw|].
    destruct (env_writeReport env); [|discriminate Hw].
    injection Hw as <- <- <-.
    repeat split; try reflexivity. apply Hback. left. reflexivity.
Qed.

(** X5.  A page can fail after its JSON file has been written: when the
    report write or the closing of the browser throws, the JSON file of the
    assembled results is on disk although the page's analysis throws and the
    page is not counted. *)
Theorem results_file_can_outlive_failure env url name r :
  succeeded (env_launch env) = true ->
  assembled env url name = Some r ->
  succeeded (env_writeJson env) = true ->
  succeeded (env_writeReport env) = false \/ succeeded (env_close env) = false ->
  In (WriteFile (jsonPath outputDir env name) (ResultsJson r))
     (fst (analyzePage outputDir env url name))
  /\ page_ok env = false
  /\ exists e, snd (analyzePage outputDir env url name) = Throw e.
Proof.
  intros Hl Ha Hj Hfail.
  assert (Hin : In (WriteFile (jsonPath outputDir env name) (ResultsJson r))
                   (fst (analyzePage outputDir env url name))).
  { apply (proj1 (List.filter_In is_write _ _)).
    rewrite analyzePage_writes. unfold pageWrites. rewrite Ha.
    destruct (env_launch env); [|discriminate].
    destruct (env_writeJson env); [|discriminate]. left. reflexivity. }
  assert (Hok : page_ok env = false).
  { unfold page_ok. destruct Hfail as [H|H]; rewrite H;
      rewrite ?andb_false_r; reflexivity. }
  split; [exact Hin|]. split; [exact Hok|].
  apply not_page_ok_throws. exact Hok.
Qed.

(** X6.  An error of [browser.close()] in the [finally] block becomes the
    outcome of [analyzePage], whatever the [try] block produced, a result or
    another error; the close is still the last event. *)
Theorem close_error_replaces_outcome env url name e :
  succeeded (env_launch env) = true ->
  env_close env = Throw e ->
  snd (analyzePage outputDir env url name) = Throw e
  /\ last (fst (analyzePage outputDir env url name)) = Some Close.
Proof.
  intros Hl Hc. rewrite analyzePage_unfold.
  destruct (env_launch env); [|discriminate]. cbn [fst snd]. rewrite Hc.
  split; [reflexivity|]. rewrite app_comm_cons. apply last_snoc.
Qed.

End PageFiles.

(** ** The order of doubles and the resource collector *)

Section DoubleOrder.

Lemma ltb_irrefl x : ltb x x = false.
Proof. unfold ltb. apply Z.ltb_irrefl. Qed.

(** Three doubles at one scale. *)
Lemma ltb_scaled3 x y z :
  let m := Z.min (expo x) (Z.min (expo y) (expo z)) in
  ltb x y = (mant x * 2 ^ (expo x - m) <? mant y * 2 ^ (expo y - m))
  /\ ltb y z = (mant y * 2 ^ (expo y - m) <? mant z * 2 ^ (expo z - m))
  /\ ltb x z = (mant x * 2 ^ (expo x - m) <? mant z * 2 ^ (expo z - m)).
Proof.
  cbv zeta. repeat split; apply ltb_scaled; lia.
Qed.

Lemma ltb_trans x y z : ltb x y = true -> ltb y z = true -> ltb x z = true.
Proof.
  destruct (ltb_scaled3 x y z) as (-> & -> & ->).
  rewrite !Z.ltb_lt. lia.
Qed.

(** [x >= y] and [y >= z] give [x >= z]. *)
Lemma ltb_false_trans x y z :
  ltb x y = false -> ltb y z = false -> ltb x z = false.
Proof.
  destruct (ltb_scaled3 z y x) as (Hzy & Hyx & Hzx).
  destruct (ltb_scaled3 x y z) as (-> & -> & ->).
  rewrite !Z.ltb_ge. lia.
Qed.

Lemma ltb_asym x y : ltb x y = true -> ltb y x = false.
Proof.
  rewrite (ltb_scaled x y (Z.min (expo x) (expo y))) by lia.
  rewrite (ltb_scaled y x (Z.min (expo x) (expo y))) by lia.
  rewrite Z.ltb_lt, Z.ltb_ge. lia.
Qed.

End DoubleOrder.

Section ResourceCollector.

Lemma insert_desc_perm r l : insert_desc r l ≡ₚ r :: l.
Proof.
  induction l as [|x l IH]; cbn [insert_desc]; [reflexivity|].
  destruct (ltb (rt_duration r) (rt_duration x)); [|reflexivity].
  rewrite IH. apply Permutation_swap.
Qed.

Lemma sort_desc_perm l : sort_desc l ≡ₚ l.
Proof.
  induction l as [|x l IH]; cbn; [reflexivity|].
  rewrite insert_desc_perm. fold (sort_desc l). rewrite IH. reflexivity.
Qed.

Lemma insert_desc_sorted r l :
  StronglySorted not_faster l -> StronglySorted not_faster (insert_desc r l).
Proof.
  induction 1 as [|x l Hs IH Hx]; cbn [insert_desc].
  - repeat constructor.
  - destruct (ltb (rt_duration r) (rt_duration x)) eqn:E.
    + constructor; [exact IH|].
      rewrite insert_desc_perm. constructor; [|exact Hx].
      unfold not_faster. apply ltb_asym. exact E.
    + constructor; [constructor; assumption|].
      constructor; [exact E|].
      eapply Forall_impl; [exact Hx|].
      intros y Hy. unfold not_faster in *.
      eapply ltb_false_trans; eassumption.
Qed.

Lemma sort_desc_sorted l : StronglySorted not_faster (sort_desc l).
Proof.
  induction l as [|x l IH]; cbn; [constructor|].
  apply insert_desc_sorted. exact IH.
Qed.

(** Stability: the resources of one duration keep their order. *)
Lemma insert_desc_takes d r l :
  List.filter (takes d) (insert_desc r l) = List.filter (takes d) (r :: l).
Proof.
  induction l as [|x l IH]; cbn [insert_desc]; [reflexivity|].
  destruct (ltb (rt_duration r) (rt_duration x)) eqn:E; [|reflexivity].
  cbn [List.filter] in *. rewrite IH.
  destruct (takes d r) eqn:Hr; [|reflexivity].
  destruct (takes d x) eqn:Hx; [|reflexivity].
  exfalso. unfold takes in Hr, Hx.
  apply andb_true_iff in Hr as [Hr1 Hr2]. apply andb_true_iff in Hx as [Hx1 Hx2].
  apply negb_true_iff in Hr1, Hr2, Hx1, Hx2.
  pose proof (ltb_false_trans _ _ _ Hr1 Hx2). congruence.
Qed.

Lemma sort_desc_stable d l :
  List.filter (takes d) (sort_desc l) = List.filter (takes d) l.
Proof.
  induction l as [|x l IH]; cbn [sort_desc foldr]; [reflexivity|].
  fold (sort_desc l). rewrite insert_desc_takes. cbn [List.filter].
  rewrite IH. reflexivity.
Qed.

Lemma pushResource_fold classify l acc :
  fst (fold_left (pushResource classify) l acc) = fst acc + sumZ (map sizeOf l)
  /\ forall t, snd (fold_left (pushResource classify) l acc) t
               = snd acc t ++ map entryOf (ofType classify t l).
Proof.
  revert acc. induction l as [|r l IH]; intros acc; cbn [fold_left map].
  - unfold sumZ, ofType. cbn. split; [lia|]. intros t. rewrite app_nil_r. reflexivity.
  - destruct (IH (pushResource classify acc r)) as [H1 H2]. split.
    + rewrite H1. unfold pushResource, sumZ. cbn. lia.
    + intros t. rewrite H2. unfold pushResource, ofType. cbn [snd List.filter].
      destruct (decide (t = classify (rt_name r))) as [->|Hne].
      * rewrite bool_decide_eq_true_2 by reflexivity. cbn [map].
        rewrite <- app_assoc. reflexivity.
      * rewrite bool_decide_eq_false_2 by congruence. reflexivity.
Qed.

Lemma ofType_lengths classify l :
  sumZ (map (fun t => Z.of_nat (length (ofType classify t l))) all_types)
  = Z.of_nat (length l).
Proof.
  induction l as [|r l IH]; [reflexivity|].
  unfold all_types, sumZ, ofType in *. cbn [map foldr List.filter length] in *.
  destruct (classify (rt_name r)); cbn [bool_decide decide_rel length] in *;
    repeat match goal with
    | |- context [bool_decide (?a = ?b)] =>
        first [rewrite (bool_decide_eq_true_2 (a = b)) by reflexivity
              |rewrite (bool_decide_eq_false_2 (a = b)) by discriminate]
    end; cbn [length]; lia.
Qed.

Lemma ofType_sizes classify l :
  sumZ (flat_map (fun t => map sizeOf (ofType classify t l)) all_types)
  = sumZ (map sizeOf l).
Proof.
  assert (Happ : forall a b, sumZ (a ++ b) = sumZ a + sumZ b).
  { intros a b. unfold sumZ. induction a as [|x a IHa]; cbn; [reflexivity|].
    cbn in IHa. rewrite IHa. lia. }
  unfold all_types. cbn [flat_map]. rewrite !Happ. change (sumZ []) with 0.
  induction l as [|r l IH]; [reflexivity|].
  unfold ofType in *. cbn [List.filter map].
  destruct (classify (rt_name r));
    repeat match goal with
    | |- context [bool_decide (?a = ?b)] =>
        first [rewrite (bool_decide_eq_true_2 (a = b)) by reflexivity
              |rewrite (bool_decide_eq_false_2 (a = b)) by discriminate]
    end; cbn [map]; unfold sumZ in *; cbn [foldr] in *; lia.
Qed.

End ResourceCollector.

(** ** Resource metrics and web vitals *)

Section VitalsAndResources.

(** X7.  [slowestResources] lists [min 5 n] of the [n] resources, by
    descending duration; every resource left out takes at most as long as
    every resource listed; and resources of equal duration keep the order of
    the timing buffer. *)
Theorem slowest_resources_are_the_top5 classify resources :
  exists m slow rest,
    getResourceMetrics_callback (Some classify) resources = Some m
    /\ slowestResources m = map (fun r => (rt_name r, Fin (rt_duration r))) slow
    /\ resources ≡ₚ slow ++ rest
    /\ length slow = Nat.min 5 (length resources)
    /\ StronglySorted not_faster slow
    /\ (forall s r, In s slow -> In r rest -> not_faster s r)
    /\ (forall d, List.filter (takes d) (slow ++ rest)
                  = List.filter (takes d) resources).
Proof.
  exists (collectResources classify resources),
    (firstn 5 (sort_desc resources)), (skipn 5 (sort_desc resources)).
  pose proof (sort_desc_sorted resources) as Hs.
  rewrite <- (firstn_skipn 5 (sort_desc resources)) in Hs.
  apply StronglySorted_app in Hs as (Hcross & Hs1 & _).
  split; [reflexivity|]. split; [reflexivity|]. split; [|split; [|split; [|split]]].
  - rewrite firstn_skipn. symmetry. apply sort_desc_perm.
  - rewrite length_firstn. rewrite (Permutation_length (sort_desc_perm resources)).
    reflexivity.
  - exact Hs1.
  - intros s r Hin1 Hin2. apply Hcross; apply list_elem_of_In; assumption.
  - intros d. rewrite firstn_skipn. apply sort_desc_stable.
Qed.

(** X8.  The categories partition the resources: the entries of a
    category are those of the resources classified into it, in their order;
    the category sizes add up to [totalResources]; and [totalSize] is the
    sum of the sizes over all resources, which is the sum over the entries
    of the five categories.  Without a classifier in the page, the callback
    returns only for an empty buffer. *)
Theorem resource_metrics_partition classify resources :
  (exists m,
     getResourceMetrics_callback (Some classify) resources = Some m
     /\ (forall t, byType m t = map entryOf (ofType classify t resources))
     /\ sumZ (map (fun t => Z.of_nat (length (byType m t))) all_types)
        = totalResources m
     /\ resourcesTotalSize m = sumZ (map sizeOf resources)
     /\ resourcesTotalSize m
        = sumZ (flat_map (fun t => map res_size (byType m t)) all_types))
  /\ (getResourceMetrics_callback None resources = None <-> resources <> []).
Proof.
  split; [|destruct resources; cbn; split; congruence].
  exists (collectResources classify resources). split; [reflexivity|].
  unfold collectResources.
  cbn [byType totalResources resourcesTotalSize].
  destruct (pushResource_fold classify resources (0, fun _ => [])) as [H1 H2].
  cbn [fst snd app] in H1, H2.
  assert (Hlen : forall t, length (snd (fold_left (pushResource classify) resources
                                                  (0, fun _ => [])) t)
                           = length (ofType classify t resources))
    by (intros t; rewrite H2, length_map; reflexivity).
  assert (Hsz : forall t, map res_size (snd (fold_left (pushResource classify) resources
                                                       (0, fun _ => [])) t)
                          = map sizeOf (ofType classify t resources)).
  { intros t. rewrite H2, map_map. reflexivity. }
  split; [exact H2|]. split; [|split].
  - unfold all_types. cbn [map]. rewrite !Hlen. apply (ofType_lengths classify).
  - rewrite H1. lia.
  - rewrite H1. unfold all_types. cbn [flat_map]. rewrite !Hsz.
    rewrite <- (ofType_sizes classify resources). reflexivity.
Qed.


Lemma fallback_lookup navigation (m : gmap string Vital) k :
  match navigation with
  | Some nav =>
      <["LoadEvent" := fallbackVital (double_sub (loadEventEnd nav) (loadEventStart nav)) 2500]>
        (<["DOMContentLoaded" :=
             fallbackVital (double_sub (domContentLoadedEventEnd nav)
                                       (domContentLoadedEventStart nav)) 1500]> m)
  | None => m
  end !! k
  = match fallbackOf navigation k with
    | Some v => Some v
    | None => m !! k
    end.
Proof.
  destruct navigation as [nav|]; [|reflexivity]. unfold fallbackOf.
  destruct (String.eqb_spec k "LoadEvent") as [->|H1].
  - apply lookup_insert_eq.
  - rewrite lookup_insert_ne by congruence.
    destruct (String.eqb_spec k "DOMContentLoaded") as [->|H2].
    + apply lookup_insert_eq.
    + apply lookup_insert_ne. congruence.
Qed.

Lemma no_library_lookup early late navigation k :
  getWebVitals_callback false early late navigation !! k = fallbackOf navigation k.
Proof.
  unfold getWebVitals_callback. cbv zeta. rewrite fallback_lookup.
  destruct (fallbackOf navigation k); [reflexivity|apply lookup_empty].
Qed.




Theorem no_library_no_vital_deductions (r : Results) early late navigation :
  webVitals r = getWebVitals_callback false early late navigation ->
  webVitals r !! "LCP" = None
  /\ webVitals r !! "FID" = None
  /\ 25 <= pageScore r
  /\ recommends msg_lcp r = false
  /\ recommends msg_fid r = false.
Proof.
  intros Hv.
  assert (Hl : webVitals r !! "LCP" = None).
  { rewrite Hv, no_library_lookup. destruct navigation; reflexivity. }
  assert (Hf : webVitals r !! "FID" = None).
  { rewrite Hv, no_library_lookup. destruct navigation; reflexivity. }
  split; [exact Hl|]. split; [exact Hf|].
  unfold recommends, recommendations, pageScore, vital_gt. rewrite Hl, Hf.
  unfold deduct_if, push_if.
  repeat match goal with |- context [if ?b then _ else _] => destruct b end;
    cbn; repeat split; try lia; reflexivity.
Qed.

End VitalsAndResources.

(** ** Score, recommendations and bundle sums *)

Section ScoreAndAdvice.

(** X11.  Score and recommendations agree: the page score is 100 minus
    20, 15, 10, 25, 20 for the slow-load, JavaScript, CSS, LCP and FID
    recommendations that are given, minus 30 more beyond 5000 ms; the
    congratulation is given exactly when it is the only recommendation,
    which is the case exactly when the score is 100 and there are at most
    100 resources; there are between one and six recommendations. *)
Theorem recommendations_match_deductions (r : Results) :
  pageScore r
  = 100 - penalty (recommends msg_slow r) 20 - penalty (5000 <? loadTime r) 30
        - penalty (recommends msg_js r) 15 - penalty (recommends msg_css r) 10
        - penalty (recommends msg_lcp r) 25 - penalty (recommends msg_fid r) 20
  /\ (recommends msg_great r = true <-> recommendations r = [msg_great])
  /\ (recommendations r = [msg_great] <->
      pageScore r = 100 /\ totalResources (resourceMetrics r) <= 100)
  /\ (1 <= length (recommendations r) <= 6)%nat.
Proof.
  unfold recommends, recommendations, pageScore, deduct_if, push_if, penalty.
  destruct (js_lt (utilizationRate (javascript (bundleAnalysis r))) 50);
    destruct (js_lt (utilizationRate (css (bundleAnalysis r))) 60);
    destruct (vital_gt (webVitals r) "LCP" 2500);
    destruct (vital_gt (webVitals r) "FID" 100);
    destruct (Z.ltb_spec 3000 (loadTime r));
    destruct (Z.ltb_spec 5000 (loadTime r)); try lia;
    destruct (Z.ltb_spec 100 (totalResources (resourceMetrics r)));
    cbn; (split; [reflexivity|]);
    (split; [split; [discriminate || reflexivity|discriminate || reflexivity]|]);
    (split; [split; [first [discriminate | intros _; split; [reflexivity|lia]]
                    |first [intros [? ?]; (discriminate || lia) | reflexivity]]|]);
    lia.
Qed.

End ScoreAndAdvice.

Section BundleSums.

Lemma sumZ_app a b : sumZ (a ++ b) = sumZ a + sumZ b.
Proof.
  unfold sumZ. induction a as [|x a IH]; cbn; [reflexivity|]. cbn in IH. lia.
Qed.

Lemma sumZ_perm a b : a ≡ₚ b -> sumZ a = sumZ b.
Proof.
  unfold sumZ. induction 1; cbn in *; lia.
Qed.

Lemma used_fold_sum rs acc :
  fold_left (fun used range => used + (end_ range - start range)) rs acc
  = acc + sumZ (map (fun r => end_ r - start r) rs).
Proof.
  revert acc. induction rs as [|r rs IH]; intros acc; cbn [fold_left map].
  - unfold sumZ. cbn. lia.
  - rewrite IH. unfold sumZ. cbn. lia.
Qed.

Lemma addCoverage_fold l acc :
  fold_left addCoverage l acc
  = (fst acc + sumZ (map textLength l), snd acc + sumZ (map usedLength l)).
Proof.
  revert acc. induction l as [|c l IH]; intros [t u]; cbn [fold_left map fst snd].
  - unfold sumZ. cbn. f_equal; lia.
  - rewrite IH. unfold addCoverage. cbn [fst snd]. rewrite used_fold_sum.
    unfold textLength, usedLength, sumZ. cbn [foldr]. f_equal; lia.
Qed.

Lemma statOf_sums l :
  statOf (fold_left addCoverage l (0, 0))
  = statOf (sumZ (map textLength l), sumZ (map usedLength l)).
Proof. rewrite addCoverage_fold. reflexivity. Qed.

Lemma textLength_sum_nonneg l : 0 <= sumZ (map textLength l).
Proof.
  induction l as [|c l IH]; unfold sumZ in *; cbn in *; [lia|].
  unfold textLength at 1. lia.
Qed.

Lemma ranges_wf_le from len rs : ranges_wf from len rs -> from <= len.
Proof.
  revert from. induction rs as [|r rs IH]; intros from H; cbn in H; [exact H|].
  destruct H as [H1 H2]. specialize (IH _ H2). lia.
Qed.

(** The used bytes after some of the ranges of an entry. *)
Lemma used_fold_prefix from len seen rest acc :
  ranges_wf from len (seen ++ rest) ->
  acc <= fold_left (fun used range => used + (end_ range - start range)) seen acc
      <= acc + (len - from).
Proof.
  revert from acc. induction seen as [|r seen IH]; intros from acc H;
    cbn [app fold_left] in *.
  - apply ranges_wf_le in H. lia.
  - cbn in H. destruct H as [H1 H2].
    specialize (IH _ (acc + (end_ r - start r)) H2). lia.
Qed.

Lemma ranges_wf_each from len rs :
  0 <= from -> ranges_wf from len rs ->
  Forall (fun range => 0 <= start range <= end_ range /\ end_ range <= len) rs.
Proof.
  revert from. induction rs as [|r rs IH]; intros from H0 H; [constructor|].
  cbn in H. destruct H as [H1 H2].
  pose proof (ranges_wf_le _ _ _ H2). constructor; [lia|].
  apply (IH (end_ r)); [lia|exact H2].
Qed.

(** The two accumulators of a class at every point of the two loops. *)
Lemma exact_coverage_steps l before c after seen rest :
  exact_coverage l -> l = before ++ c :: after -> ranges c = seen ++ rest ->
  let acc := fold_left addCoverage before (0, 0) in
  let used := fold_left (fun used range => used + (end_ range - start range))
                        seen (snd acc) in
  0 <= snd acc <= fst acc
  /\ snd acc <= used <= fst acc + textLength c
  /\ fst acc + textLength c <= 2 ^ 53
  /\ Forall (fun range => 0 <= start range <= end_ range
                          /\ end_ range <= textLength c) (ranges c).
Proof.
  intros [Hwf Hsum] -> Hr. cbv zeta.
  apply Forall_app in Hwf as [Hb Hca]. apply Forall_cons in Hca as [Hc Ha].
  pose proof (coverage_fold_inv before (0, 0) Hb ltac:(simpl; lia)) as Hacc.
  rewrite map_app, sumZ_app in Hsum. cbn [map] in Hsum.
  change (sumZ (textLength c :: map textLength after))
    with (textLength c + sumZ (map textLength after)) in Hsum.
  pose proof (textLength_sum_nonneg after) as Hafter.
  assert (Ef : fst (fold_left addCoverage before (0, 0))
               = sumZ (map textLength before))
    by (rewrite addCoverage_fold; reflexivity).
  unfold entry_wf in Hc. fold (textLength c) in Hc.
  pose proof (ranges_wf_each 0 _ _ ltac:(lia) Hc) as Heach.
  rewrite Hr in Hc.
  pose proof (used_fold_prefix _ _ _ _ (snd (fold_left addCoverage before (0, 0))) Hc)
    as Hused.
  split; [exact Hacc|]. split; [lia|]. split; [lia|exact Heach].
Qed.

(** X12.  On coverage whose ranges are sorted, do not overlap and lie inside
    their text, with texts of at most 2^53 characters in all per class:
    [analyzeBundleSize] adds up without rounding.  At every point of the two
    loops of a class the used bytes are between 0 and the total bytes, and
    the total bytes are at most 2^53, as is each range bound; so the total
    size is the sum of the text lengths, the used size the sum of the range
    lengths, and used and unused size add up to the total. *)
Theorem analyzeBundleSize_sums jsCoverage cssCoverage :
  exact_coverage jsCoverage -> exact_coverage cssCoverage ->
  let b := analyzeBundleSize jsCoverage cssCoverage in
  (totalSize (javascript b) = sumZ (map textLength jsCoverage)
   /\ usedSize (javascript b) = sumZ (map usedLength jsCoverage)
   /\ totalSize (css b) = sumZ (map textLength cssCoverage)
   /\ usedSize (css b) = sumZ (map usedLength cssCoverage)
   /\ unusedSize (javascript b) + usedSize (javascript b) = totalSize (javascript b)
   /\ unusedSize (css b) + usedSize (css b) = totalSize (css b)
   /\ 0 <= usedSize (javascript b) <= totalSize (javascript b)
   /\ totalSize (javascript b) <= 2 ^ 53
   /\ 0 <= usedSize (css b) <= totalSize (css b)
   /\ totalSize (css b) <= 2 ^ 53)
  /\ (forall l before c after seen rest,
        l = jsCoverage \/ l = cssCoverage ->
        l = before ++ c :: after -> ranges c = seen ++ rest ->
        let acc := fold_left addCoverage before (0, 0) in
        let used := fold_left (fun used range => used + (end_ range - start range))
                              seen (snd acc) in
        0 <= snd acc <= fst acc
        /\ snd acc <= used <= fst acc + textLength c
        /\ fst acc + textLength c <= 2 ^ 53
        /\ Forall (fun range => 0 <= start range <= end_ range
                                /\ end_ range <= textLength c) (ranges c)).
Proof.
  intros Hj Hc. cbv zeta. split.
  - pose proof (coverage_fold_inv jsCoverage (0, 0) (proj1 Hj) ltac:(simpl; lia)) as Bj.
    pose proof (coverage_fold_inv cssCoverage (0, 0) (proj1 Hc) ltac:(simpl; lia)) as Bc.
    rewrite addCoverage_fold in Bj, Bc. cbn [fst snd] in Bj, Bc.
    destruct Hj as [_ Hj], Hc as [_ Hc].
    unfold analyzeBundleSize. cbn [javascript css]. rewrite !statOf_sums.
    unfold statOf. cbn [totalSize usedSize unusedSize fst snd].
    repeat split; try reflexivity; lia.
  - intros l before c after seen rest [-> | ->] Hl Hr.
    + exact (exact_coverage_steps _ _ _ _ _ _ Hj Hl Hr).
    + exact (exact_coverage_steps _ _ _ _ _ _ Hc Hl Hr).
Qed.

(** X13.  On such coverage the bundle analysis does not depend on the order
    in which the entries are reported: every arrangement of the entries is
    such coverage again, and gives the same result. *)
Theorem analyzeBundleSize_order_independent js js' css css' :
  exact_coverage js -> exact_coverage css ->
  js ≡ₚ js' -> css ≡ₚ css' ->
  exact_coverage js' /\ exact_coverage css'
  /\ analyzeBundleSize js css = analyzeBundleSize js' css'.
Proof.
  intros [Wj Sj] [Wc Sc] Hj Hc.
  pose proof (sumZ_perm _ _ (Permutation_map textLength Hj)) as Ej.
  pose proof (sumZ_perm _ _ (Permutation_map textLength Hc)) as Ec.
  split; [split; [unfold coverage_wf; rewrite <- Hj; exact Wj|lia]|].
  split; [split; [unfold coverage_wf; rewrite <- Hc; exact Wc|lia]|].
  unfold analyzeBundleSize. rewrite !statOf_sums. rewrite Ej, Ec.
  rewrite (sumZ_perm _ _ (Permutation_map usedLength Hj)).
  rewrite (sumZ_perm _ _ (Permutation_map usedLength Hc)).
  reflexivity.
Qed.

End BundleSums.

(** ** The overall score as a rounded mean *)

Section RoundedMean.

Lemma totalScore_sum rs acc :
  fold_left (fun totalScore result => totalScore + clampedScore result) rs acc
  = acc + sumZ (map clampedScore rs).
Proof.
  revert acc. induction rs as [|r rs IH]; intros acc; cbn [fold_left map].
  - unfold sumZ. cbn. lia.
  - rewrite IH. unfold sumZ. cbn. lia.
Qed.

Lemma clamped_sum_bounds rs :
  0 <= sumZ (map clampedScore rs) <= 100 * Z.of_nat (length rs).
Proof.
  induction rs as [|r rs IH]; unfold sumZ in *; cbn [map foldr length] in *; [lia|].
  pose proof (pageScore_range r). unfold clampedScore, Math_max0 in *. lia.
Qed.

(** [Math.round(T / n)] for a total [T] of at most [100 * n] over at most
    2^45 pages: the quotient rounded half up. *)
Lemma round_div_half_up T n :
  0 < n <= 2 ^ 45 -> 0 <= T <= 100 * n ->
  Math_round (div_int T n) = Fin (of_Z ((2 * T + n) / (2 * n))).
Proof.
  intros Hn HT. unfold div_int.
  destruct (Z.eqb_spec n 0); [lia|]. destruct (Z.ltb_spec 0 n); [|lia].
  set (K := (2 * T + n) / (2 * n)).
  assert (HK : (2 * K - 1) * n <= 2 * T /\ 2 * T <= (2 * K + 1) * n - 1).
  { unfold K. pose proof (Z.div_mod (2 * T + n) (2 * n) ltac:(lia)) as E.
    pose proof (Z.mod_pos_bound (2 * T + n) (2 * n) ltac:(lia)) as B. nia. }
  destruct (Z.eq_dec T 0) as [->|HT0].
  { cbn [round_ratio Math_round zero mant expo]. cbn. do 2 f_equal.
    unfold K. symmetry. apply Z.div_small. lia. }
  assert (Hp : 0 < T) by lia.
  unfold Math_round. do 2 f_equal.
  destruct T as [|T'|T']; try lia. cbn [round_ratio].
  set (T := Z.pos T') in *.
  pose proof (round_pos_forms T n) as Hforms. cbv zeta in Hforms.
  set (e0 := ilog2_ratio T n - 52) in *.
  set (m0 := rne (T * 2 ^ Z.max 0 (- e0)) (n * 2 ^ Z.max 0 e0)) in *.
  assert (He : e0 <= -46).
  { assert (ilog2_ratio T n < 7)
      by (apply ilog2_ratio_upper; [lia|lia|lia|change (2 ^ 7) with 128; lia]).
    unfold e0. lia. }
  set (Hf := 2 ^ (- e0 - 1)).
  assert (HH : 2 ^ 45 <= Hf) by (apply Z.pow_le_mono_r; lia).
  assert (EA : 2 ^ (- e0) = 2 * Hf).
  { unfold Hf. replace (- e0) with (1 + (- e0 - 1)) at 1 by lia.
    rewrite pow2_split by lia. reflexivity. }
  assert (Hm : (2 * K - 1) * Hf <= m0 <= (2 * K + 1) * Hf - 1).
  { unfold m0. rewrite (Z.max_r 0 (- e0)), (Z.max_l 0 e0) by lia.
    change (2 ^ 0) with 1. rewrite Z.mul_1_r, EA. split.
    - apply rne_ge; [lia|]. nia.
    - apply rne_le; [lia|]. nia. }
  assert (Hres : (2 * m0 + 2 * Hf) / (2 * (2 * Hf)) = K).
  { assert (E1 : (2 * K - 1) * Hf = 2 * (K * Hf) - Hf) by ring.
    assert (E2 : (2 * K + 1) * Hf = 2 * (K * Hf) + Hf) by ring.
    rewrite E1, E2 in Hm.
    symmetry. apply Z.div_unique with (r := 2 * m0 + 2 * Hf - 4 * (K * Hf)); [lia|ring]. }
  destruct Hforms as [-> | [Em ->]]; cbn [mant expo].
  - destruct (Z.leb_spec 0 e0); [lia|].
    replace (1 - e0) with (1 + - e0) by lia. rewrite pow2_split by lia.
    change (2 ^ 1) with 2. rewrite EA. exact Hres.
  - destruct (Z.leb_spec 0 (e0 + 1)); [lia|].
    replace (- (e0 + 1)) with (- e0 - 1) by lia.
    replace (1 - (e0 + 1)) with (- e0) by lia. fold Hf. rewrite EA.
    rewrite <- Hres, Em.
    replace (2 * (2 * 2 ^ 52) + 2 * Hf) with ((2 * 2 ^ 52 + Hf) * 2) by ring.
    replace (2 * (2 * Hf)) with (2 * Hf * 2) by ring.
    rewrite Z.div_mul_cancel_r by lia. reflexivity.
Qed.

(** X14.  For up to 2^45 results, the overall score is the mean of the
    clamped page scores rounded to the nearest integer, halves up, computed
    without any floating-point error; it does not depend on the order of the
    results, and it is the common page score when all pages score the
    same. *)
Theorem batch_score_is_rounded_mean rs :
  rs <> [] -> Z.of_nat (length rs) <= 2 ^ 45 ->
  let total := sumZ (map clampedScore rs) in
  let n := Z.of_nat (length rs) in
  calculateOverallScore rs = Fin (of_Z ((2 * total + n) / (2 * n)))
  /\ (forall rs', rs ≡ₚ rs' -> calculateOverallScore rs' = calculateOverallScore rs)
  /\ (forall s, Forall (fun r => clampedScore r = s) rs ->
                calculateOverallScore rs = Fin (of_Z s)).
Proof.
  intros Hne Hlen. cbv zeta.
  assert (Hn : 0 < Z.of_nat (length rs)) by (destruct rs; [congruence|cbn [length]; lia]).
  pose proof (clamped_sum_bounds rs) as Hb.
  assert (Hval : calculateOverallScore rs
                 = Fin (of_Z ((2 * sumZ (map clampedScore rs) + Z.of_nat (length rs))
                              / (2 * Z.of_nat (length rs))))).
  { unfold calculateOverallScore. rewrite totalScore_sum. cbn [Z.add].
    apply round_div_half_up; lia. }
  split; [exact Hval|]. split.
  - intros rs' Hperm. unfold calculateOverallScore. rewrite !totalScore_sum.
    rewrite <- (Permutation_length Hperm).
    rewrite (sumZ_perm _ _ (Permutation_map clampedScore Hperm)). reflexivity.
  - intros s Hall. rewrite Hval. do 2 f_equal.
    assert (Hs : sumZ (map clampedScore rs) = s * Z.of_nat (length rs)).
    { clear -Hall. induction Hall as [|r rs Hr _ IH]; unfold sumZ in *;
        cbn [map foldr length] in *; [lia|]. rewrite IH, Hr. lia. }
    rewrite Hs. symmetry. apply Z.div_unique with (r := Z.of_nat (length rs)); lia.
Qed.

End RoundedMean.

(** ** Utilisation thresholds *)

Section Windows.







End Windows.

Section UtilizationThresholds.



End UtilizationThresholds.

(** ** Instances of the further properties *)

Lemma batch_logs_each_failure_once_witness :
  In (ConsoleError "❌ Error analyzing home: EACCES: permission denied")
     (fst (runFullAnalysis sampleBaseUrl sampleOutputDir oneWriteFails)).
Proof.
  apply (proj2 (batch_logs_each_failure_once sampleBaseUrl sampleOutputDir oneWriteFails)
               {| page_url := sampleBaseUrl +:+ "/"; page_name := "home" |}).
  - left. reflexivity.
  - reflexivity.
Defined.

Lemma batch_returns_successes_in_order_witness :
  succeeded (env_writeSummary twoOfFour) = true
  /\ exists rs,
       snd (runFullAnalysis sampleBaseUrl sampleOutputDir twoOfFour) = Ok rs
       /\ Forall2 (fun p r => assembled (env_page twoOfFour (page_name p))
                                       (page_url p) (page_name p) = Some r)
                  (ok_pages sampleBaseUrl twoOfFour) rs
       /\ map pageName rs = map page_name (ok_pages sampleBaseUrl twoOfFour).
Proof.
  split; [reflexivity|].
  apply (batch_returns_successes_in_order sampleBaseUrl sampleOutputDir twoOfFour).
  reflexivity.
Defined.

Lemma page_files_written_witness :
  assembled unreachablePage (sampleBaseUrl +:+ "/reports") "reports" = None
  /\ List.filter is_write
       (fst (analyzePage sampleOutputDir unreachablePage
                         (sampleBaseUrl +:+ "/reports") "reports")) = [].
Proof.
  split; [reflexivity|].
  apply (page_files_written sampleOutputDir unreachablePage). reflexivity.
Defined.

Lemma results_file_can_outlive_failure_witness :
  In (WriteFile (jsonPath sampleOutputDir closeFailsPage "home")
                (ResultsJson (sampleResult 1000 80 90 ∅)))
     (fst (analyzePage sampleOutputDir closeFailsPage "http://localhost:3000/" "home"))
  /\ page_ok closeFailsPage = false
  /\ exists e, snd (analyzePage sampleOutputDir closeFailsPage
                                "http://localhost:3000/" "home") = Throw e.
Proof.
  apply (results_file_can_outlive_failure sampleOutputDir closeFailsPage).
  - reflexivity.
  - reflexivity.
  - reflexivity.
  - right. reflexivity.
Defined.

Lemma close_error_replaces_outcome_witness :
  snd (analyzePage sampleOutputDir closeFailsPage "http://localhost:3000/" "home")
  = Throw "Protocol error: Target closed"
  /\ last (fst (analyzePage sampleOutputDir closeFailsPage
                            "http://localhost:3000/" "home")) = Some Close.
Proof.
  apply (close_error_replaces_outcome sampleOutputDir closeFailsPage); reflexivity.
Defined.


Lemma no_library_no_vital_deductions_witness :
  let r := sampleResult 6000 10 10
             (getWebVitals_callback false [] [("LCP", vital 9000 "poor")]
                                    (Some sampleNavigation)) in
  webVitals r !! "LCP" = None
  /\ webVitals r !! "FID" = None
  /\ 25 <= pageScore r
  /\ recommends msg_lcp r = false
  /\ recommends msg_fid r = false.
Proof.
  cbv zeta.
  apply (no_library_no_vital_deductions _ [] [("LCP", vital 9000 "poor")]
                                        (Some sampleNavigation)).
  reflexivity.
Defined.

Lemma analyzeBundleSize_sums_witness :
  let b := analyzeBundleSize [covered 10 5; covered 20 3] [covered 7 7] in
  exact_coverage [covered 10 5; covered 20 3] /\ exact_coverage [covered 7 7]
  /\ totalSize (javascript b) = 30 /\ usedSize (javascript b) = 8
  /\ unusedSize (javascript b) = 22.
Proof.
  cbv zeta.
  assert (W1 : exact_coverage [covered 10 5; covered 20 3])
    by (split; [repeat constructor; cbn; lia|vm_compute; discriminate]).
  assert (W2 : exact_coverage [covered 7 7])
    by (split; [repeat constructor; cbn; lia|vm_compute; discriminate]).
  destruct (analyzeBundleSize_sums _ _ W1 W2) as ((H1 & H2 & _ & _ & H3 & _) & _).
  split; [exact W1|]. split; [exact W2|].
  split; [rewrite H1; reflexivity|]. split; [rewrite H2; reflexivity|].
  rewrite H1, H2 in H3. vm_compute in H3. vm_compute. lia.
Defined.

Lemma analyzeBundleSize_order_independent_witness :
  exact_coverage [covered 10 5; covered 20 3]
  /\ exact_coverage [covered 7 7; covered 9 0]
  /\ analyzeBundleSize [covered 10 5; covered 20 3] [covered 7 7; covered 9 0]
     = analyzeBundleSize [covered 20 3; covered 10 5] [covered 9 0; covered 7 7].
Proof.
  assert (W1 : exact_coverage [covered 10 5; covered 20 3])
    by (split; [repeat constructor; cbn; lia|vm_compute; discriminate]).
  assert (W2 : exact_coverage [covered 7 7; covered 9 0])
    by (split; [repeat constructor; cbn; lia|vm_compute; discriminate]).
  split; [exact W1|]. split; [exact W2|].
  apply (analyzeBundleSize_order_independent _ _ _ _ W1 W2); apply perm_swap.
Defined.

Lemma batch_score_is_rounded_mean_witness :
  let rs := [sampleResult 1000 80 90 ∅; sampleResult 4000 40 90 ∅;
             sampleResult 1000 80 90 ∅] in
  rs <> [] /\ Z.of_nat (length rs) <= 2 ^ 45
  /\ calculateOverallScore rs
     = Fin (of_Z ((2 * sumZ (map clampedScore rs) + Z.of_nat (length rs))
                  / (2 * Z.of_nat (length rs)))).
Proof.
  cbv zeta.
  assert (H1 : [sampleResult 1000 80 90 ∅; sampleResult 4000 40 90 ∅;
                sampleResult 1000 80 90 ∅] <> []) by discriminate.
  assert (H2 : Z.of_nat (length [sampleResult 1000 80 90 ∅; sampleResult 4000 40 90 ∅;
                                 sampleResult 1000 80 90 ∅]) <= 2 ^ 45)
    by (cbn; lia).
  split; [exact H1|]. split; [exact H2|].
  exact (proj1 (batch_score_is_rounded_mean _ H1 H2)).
Defined.

